(** * OCSP verification of a TLS peer certificate

    A shallow embedding of [x/mongo/driver/ocsp/ocsp.go]: the functions
    [Verify], [parseStaple], [contactResponders] and [verifyResponse] with
    the data they touch, followed by the properties of the revocation
    pipeline.

    The collaborators the Go file calls but does not define (the ASN.1 codec
    of [golang.org/x/crypto/ocsp], the HTTP client, the wall clock,
    [newConfig]) are the fields of an environment record [Env]; every call
    to one of them is recorded in a trace, so that "no network call was
    made" is a statement about that trace. *)

From Stdlib Require Import ZArith List String Bool Lia.
From Stdlib Require Import Permutation.
Import ListNotations.
Open Scope Z_scope.

(* ================================================================== *)
(** ** Time values ([time.Time], [time.Duration]) *)
(* ================================================================== *)

(** A [time.Time] carries a wall-clock reading (seconds since January 1,
    year 1, and nanoseconds within the second) and, when it was obtained
    from [time.Now], a monotonic-clock reading in nanoseconds.  The range
    saturation of the packed representation is not modelled: the fields are
    unbounded integers. *)
Record Time : Type := mkTime {
  sec  : Z;
  nsec : Z;
  mono : option Z
}.

(** [Duration] is a count of nanoseconds. *)
Definition Duration : Type := Z.

Definition Second : Duration := 1000000000.

(** [t.After(u)]: both monotonic readings when both are present, the wall
    clock otherwise. *)
Definition After (t u : Time) : bool :=
  match mono t, mono u with
  | Some a, Some b => b <? a
  | _, _ => (sec u <? sec t) || ((sec t =? sec u) && (nsec u <? nsec t))
  end.

(** [t.Before(u)]. *)
Definition Before (t u : Time) : bool :=
  match mono t, mono u with
  | Some a, Some b => a <? b
  | _, _ => (sec t <? sec u) || ((sec t =? sec u) && (nsec t <? nsec u))
  end.

(** [t.IsZero()]: the zero instant, January 1, year 1, 00:00:00 UTC. *)
Definition IsZero (t : Time) : bool := (sec t =? 0) && (nsec t =? 0).

(** [t.UTC()]: same instant, location set to UTC; setting the location
    drops the monotonic reading. *)
Definition UTC (t : Time) : Time := mkTime (sec t) (nsec t) None.

(** [t.Add(d)]: the nanoseconds are renormalised into [0, 1e9) and the
    monotonic reading, if any, advances by [d]. *)
Definition Add (t : Time) (d : Duration) : Time :=
  let dsec := Z.quot d Second in
  let ns := nsec t + Z.rem d Second in
  let '(dsec, ns) :=
    if Second <=? ns then (dsec + 1, ns - Second)
    else if ns <? 0 then (dsec - 1, ns + Second)
    else (dsec, ns) in
  mkTime (sec t + dsec) ns (option_map (fun m => m + d) (mono t)).

(* ================================================================== *)
(** ** Errors *)
(* ================================================================== *)

(** Go [error] values, one constructor per way the file (or a library it
    calls) builds one.  The three [fmt_Errorf_] constructors are the three
    calls of [fmt.Errorf], each holding the values its format string prints
    ([fmt_Errorf_staple cause] is the error whose text is "error parsing
    stapled response: " followed by the text of [cause]).  [OCSPError] is
    the package's own [*Error] wrapper;
    [url_Error] is [*url.Error]; the two [context_] values are the sentinel
    errors of package [context]; [net_error] stands for the network stack's
    errors, which answer [Timeout()] themselves. *)
Inductive error : Type :=
| errors_New (msg : string)
| fmt_Errorf_staple (cause : error)
| fmt_Errorf_thisUpdate (thisUpdate currTime : Time)
| fmt_Errorf_nextUpdate (nextUpdate currTime : Time)
| context_Canceled
| context_DeadlineExceeded
| net_error (timeout : bool) (msg : string)
| url_Error (Op URL : string) (Err : error)
| OCSPError (wrapped : error).

(** [newOCSPError]. *)
Definition newOCSPError (wrapped : error) : error := OCSPError wrapped.

(** [errGotOCSPResponse = errors.New("done")]. *)
Definition errGotOCSPResponse : error := errors_New "done".

(** The [Timeout() bool] method where an error value has one.
    [context.DeadlineExceeded] answers true, a network error answers for
    itself, a [*url.Error] asks the error it wraps; [context.Canceled],
    [errors.New] values, [fmt.Errorf] values and [*Error] have no such
    method. *)
Fixpoint error_Timeout (e : error) : bool :=
  match e with
  | context_DeadlineExceeded => true
  | net_error t _ => t
  | url_Error _ _ inner => error_Timeout inner
  | _ => false
  end.

(** [err == context.Canceled]. *)
Definition is_context_Canceled (e : error) : bool :=
  match e with
  | context_Canceled => true
  | _ => false
  end.

(** [err == errGotOCSPResponse]. *)
Definition is_errGotOCSPResponse (e : error) : bool :=
  match e with
  | errors_New msg => String.eqb msg "done"
  | _ => false
  end.

(** What the library prints and the package does not define: a time under
    the verb [%s] ([Time.String]) and a string under [%q]
    ([strconv.Quote]). *)
Record Printer : Type := mkPrinter {
  Time_String   : Time -> string;
  strconv_Quote : string -> string
}.

(** The [Error() string] method of each error value.  The case of
    [OCSPError] is the method of the package's [*Error]; the three
    [fmt_Errorf_] cases are the format strings of the file; the others are
    the texts of the library's errors. *)
Fixpoint error_Error (P : Printer) (e : error) : string :=
  match e with
  | errors_New msg => msg
  | fmt_Errorf_staple cause =>
      "error parsing stapled response: " ++ error_Error P cause
  | fmt_Errorf_thisUpdate thisUpdate currTime =>
      "reported thisUpdate time " ++ Time_String P thisUpdate
      ++ " is after current time " ++ Time_String P currTime
  | fmt_Errorf_nextUpdate nextUpdate currTime =>
      "reported nextUpdate time " ++ Time_String P nextUpdate
      ++ " is before current time " ++ Time_String P currTime
  | context_Canceled => "context canceled"
  | context_DeadlineExceeded => "context deadline exceeded"
  | net_error _ msg => msg
  | url_Error Op URL Err =>
      Op ++ " " ++ strconv_Quote P URL ++ ": " ++ error_Error P Err
  | OCSPError wrapped => "OCSP verification failed: " ++ error_Error P wrapped
  end.

(* ================================================================== *)
(** ** Certificates, responses, connection state *)
(* ================================================================== *)

Definition bytes : Type := list Byte.byte.

(** [asn1.ObjectIdentifier] is a slice of integers. *)
Definition ObjectIdentifier : Type := list Z.

(** [oi.Equal(other)]: same length and same components. *)
Fixpoint ObjectIdentifier_Equal (oi other : ObjectIdentifier) : bool :=
  match oi, other with
  | [], [] => true
  | a :: oi', b :: other' => (a =? b) && ObjectIdentifier_Equal oi' other'
  | _, _ => false
  end.

Definition mustStapleExtensionOID : ObjectIdentifier :=
  [1; 3; 6; 1; 5; 5; 7; 1; 24].

Definition ocspSigningExtensionID : ObjectIdentifier :=
  [1; 3; 6; 1; 5; 5; 7; 3; 9].

Definition defaultRequestTimeout : Duration := 5 * Second.

(** [pkix.Extension]. *)
Record Extension : Type := mkExtension {
  Id       : ObjectIdentifier;
  Critical : bool;
  Value    : bytes
}.

(** The fields of [x509.Certificate] the package reads. *)
Record Certificate : Type := mkCertificate {
  Raw        : bytes;
  Extensions : list Extension;
  OCSPServer : list string
}.

(** The package's [config], declared next to [newConfig] in a file of the
    package other than [ocsp.go]: the two fields [ocsp.go] reads, the leaf
    certificate and its issuer. *)
Record config : Type := mkConfig {
  serverCert : Certificate;
  issuer     : Certificate
}.

(** Certificate status codes of [golang.org/x/crypto/ocsp]. *)
Definition ocsp_Good : Z := 0.
Definition ocsp_Revoked : Z := 1.
Definition ocsp_Unknown : Z := 2.

(** The fields of [ocsp.Response] the package reads; [Status] is a Go
    [int]. *)
Record Response : Type := mkResponse {
  Status     : Z;
  ThisUpdate : Time;
  NextUpdate : Time
}.

(** The fields of [tls.ConnectionState] the package reads. *)
Record ConnectionState : Type := mkConnectionState {
  VerifiedChains : list (list Certificate);
  OCSPResponse   : bytes
}.

(* ================================================================== *)
(** ** Execution contexts ([context.Context]) *)
(* ================================================================== *)

(** A context is the background context or one derived from a parent,
    either with a deadline of its own or with a cancel function only. *)
Inductive Context : Type :=
| backgroundCtx
| deadlineCtx (parent : Context) (d : Time)
| cancelCtx (parent : Context).

(** [ctx.Deadline()]: [Some d] is Go's [(d, true)], [None] is [ok = false]. *)
Fixpoint Deadline (ctx : Context) : option Time :=
  match ctx with
  | backgroundCtx => None
  | deadlineCtx _ d => Some d
  | cancelCtx parent => Deadline parent
  end.

(** [context.WithDeadline(parent, d)]: when the parent already expires
    before [d] the result is only a cancellable child of the parent. *)
Definition context_WithDeadline (parent : Context) (d : Time) : Context :=
  match Deadline parent with
  | Some cur => if Before cur d then cancelCtx parent else deadlineCtx parent d
  | None => deadlineCtx parent d
  end.

(** The context of [errgroup.WithContext(ctx)]: a cancellable child, which
    the group cancels when a task returns a non-nil error. *)
Definition errgroup_WithContext (ctx : Context) : Context := cancelCtx ctx.

(* ================================================================== *)
(** ** HTTP requests and responses *)
(* ================================================================== *)

Record Request : Type := mkRequest {
  Method : string;
  URL    : string;
  Body   : bytes;
  Ctx    : Context
}.

(** [request.WithContext(ctx)]. *)
Definition WithContext (request : Request) (ctx : Context) : Request :=
  mkRequest (Method request) (URL request) (Body request) ctx.

(** An [*http.Response]: its status code, and what [ioutil.ReadAll] of its
    body yields. *)
Record HTTPResponse : Type := mkHTTPResponse {
  StatusCode : Z;
  ReadAll    : bytes + error
}.

(* ================================================================== *)
(** ** The environment and the trace of collaborator calls *)
(* ================================================================== *)

(** What one task of the group leaves behind: the response it sent on the
    [ocspResponses] channel, if any, and the error it returned. *)
Definition TaskResult : Type := (option Response * option error)%type.

(** The collaborators.  A Go result [(v, err)] of a library call is a sum:
    [inl v] when [err == nil], [inr err] otherwise.  [time_Now_at n] is the
    reading of the [n]-th call of [time.Now].  [newConfig] belongs to the
    package but not to [ocsp.go].  [completion] puts the results of the
    tasks, given in spawn order, in the order in which the tasks finished; a
    task's send on the channel and its return count as one step. *)
Record Env : Type := mkEnv {
  time_Now_at               : nat -> Time;
  newConfig                 : list Certificate -> config + error;
  ocsp_ParseResponseForCert : bytes -> Certificate -> Certificate -> Response + error;
  ocsp_CreateRequest        : Certificate -> Certificate -> bytes + error;
  http_NewRequest           : string -> string -> bytes -> Request + error;
  http_Do                   : Request -> HTTPResponse + error;
  completion                : list TaskResult -> list TaskResult
}.

Inductive Event : Type :=
| call_newConfig (certChain : list Certificate)
| call_ParseResponseForCert (data : bytes)
| call_CreateRequest
| call_time_Now
| call_http_Do (request : Request).

(** The state threaded through a verification: how often the clock was
    read, and every collaborator call so far, oldest first. *)
Record World : Type := mkWorld {
  ticks : nat;
  trace : list Event
}.

Definition World0 : World := mkWorld 0 [].

Definition M (A : Type) : Type := World -> A * World.

Definition ret {A : Type} (a : A) : M A := fun w => (a, w).

Definition bind {A B : Type} (m : M A) (k : A -> M B) : M B :=
  fun w => let (a, w') := m w in k a w'.

Notation "x <- m ;; k" := (bind m (fun x => k))
  (at level 61, m at next level, right associativity).

Definition emit (e : Event) : M unit :=
  fun w => (tt, mkWorld (ticks w) (trace w ++ [e])).

Fixpoint mapM {A B : Type} (f : A -> M B) (l : list A) : M (list B) :=
  match l with
  | [] => ret []
  | a :: l' => b <- f a ;; bs <- mapM f l' ;; ret (b :: bs)
  end.

(** The result of running a computation from a given state, and the state
    it leaves. *)
Definition result {A : Type} (m : M A) (w : World) : A := fst (m w).
Definition after {A : Type} (m : M A) (w : World) : World := snd (m w).

(** The requests handed to the HTTP client, in the order of the calls. *)
Fixpoint http_calls (t : list Event) : list Request :=
  match t with
  | [] => []
  | call_http_Do request :: t' => request :: http_calls t'
  | _ :: t' => http_calls t'
  end.

Section Program.

Variable E : Env.

(** Each collaborator call, recorded. *)

Definition time_Now : M Time :=
  fun w => (time_Now_at E (ticks w),
            mkWorld (S (ticks w)) (trace w ++ [call_time_Now])).

Definition do_newConfig (certChain : list Certificate) : M (config + error) :=
  _ <- emit (call_newConfig certChain) ;; ret (newConfig E certChain).

Definition do_ParseResponseForCert (data : bytes) (cert iss : Certificate)
  : M (Response + error) :=
  _ <- emit (call_ParseResponseForCert data) ;;
  ret (ocsp_ParseResponseForCert E data cert iss).

Definition do_CreateRequest (cert iss : Certificate) : M (bytes + error) :=
  _ <- emit call_CreateRequest ;; ret (ocsp_CreateRequest E cert iss).

Definition do_http (request : Request) : M (HTTPResponse + error) :=
  _ <- emit (call_http_Do request) ;; ret (http_Do E request).

(* ================================================================== *)
(** ** [verifyResponse] *)
(* ================================================================== *)

Definition verifyResponse (cfg : config) (res : Response) : M (option error) :=
  now <- time_Now ;;
  let currTime := UTC now in
  if After (ThisUpdate res) currTime then
    ret (Some (fmt_Errorf_thisUpdate (ThisUpdate res) currTime))
  else if negb (IsZero (NextUpdate res)) && Before (NextUpdate res) currTime then
    ret (Some (fmt_Errorf_nextUpdate (NextUpdate res) currTime))
  else if Status res =? ocsp_Revoked then
    ret (Some (errors_New "certificate is revoked"))
  else ret None.

(* ================================================================== *)
(** ** [parseStaple] *)
(* ================================================================== *)

(** The scan of the leaf's extensions for the Must-Staple OID (the [for]
    loop with its [break]). *)
Definition mustStaple (cfg : config) : bool :=
  existsb (fun extension => ObjectIdentifier_Equal (Id extension) mustStapleExtensionOID)
          (Extensions (serverCert cfg)).

Definition errMustStaple : error :=
  errors_New ("server provided a certificate with the Must-Staple extension but did not "
              ++ "provde a stapled OCSP response").

Definition parseStaple (cfg : config) (staple : bytes)
  : M (option Response * option error) :=
  if mustStaple cfg && (List.length staple =? 0)%nat then
    ret (None, Some errMustStaple)
  else if (List.length staple =? 0)%nat then
    ret (None, None)
  else
    parsed <- do_ParseResponseForCert staple (serverCert cfg) (issuer cfg) ;;
    match parsed with
    | inr err => ret (None, Some (fmt_Errorf_staple err))
    | inl parsedResponse => ret (Some parsedResponse, None)
    end.

(* ================================================================== *)
(** ** [contactResponders] *)
(* ================================================================== *)

(** The choice of the request context: [(requestCtx, userContextUsed)]
    from the caller's context and the reading of [time.Now]. *)
Definition requestContext (ctx : Context) (now : Time) : Context * bool :=
  let wantDeadline := Add now defaultRequestTimeout in
  match Deadline ctx with
  | Some deadline =>
      if After deadline wantDeadline
      then (context_WithDeadline ctx wantDeadline, false)
      else (ctx, true)
  | None => (context_WithDeadline ctx wantDeadline, false)
  end.

(** The function each goroutine of the group runs for its endpoint. *)
Definition task (userContextUsed : bool) (groupCtx : Context) (cfg : config)
  (requestBytes : bytes) (endpoint : string) : M TaskResult :=
  match http_NewRequest E "POST" endpoint requestBytes with
  | inr _ => ret (None, None)
  | inl request =>
    let request := WithContext request groupCtx in
    done <- do_http request ;;
    match done with
    | inr err =>
      match err with
      | url_Error _ _ inner =>
        let timeout := error_Timeout err in
        let cancelled := is_context_Canceled inner in
        if userContextUsed && (timeout || cancelled)
        then ret (None, Some (newOCSPError err))
        else ret (None, None)
      | _ => ret (None, None)
      end
    | inl httpResponse =>
      if negb (StatusCode httpResponse =? 200) then ret (None, None)
      else
        match ReadAll httpResponse with
        | inr _ => ret (None, None)
        | inl httpBytes =>
          parsed <- do_ParseResponseForCert httpBytes (serverCert cfg) (issuer cfg) ;;
          match parsed with
          | inr _ => ret (None, None)
          | inl ocspResponse =>
            if Status ocspResponse =? ocsp_Unknown then ret (None, None)
            else ret (Some ocspResponse, Some errGotOCSPResponse)
          end
        end
    end
  end.

(** [group.Wait()]: the first non-nil error a task returned, in the order
    the tasks finished. *)
Fixpoint group_Wait (returned : list (option error)) : option error :=
  match returned with
  | [] => None
  | Some err :: _ => Some err
  | None :: rest => group_Wait rest
  end.

(** The contents of the [ocspResponses] channel once every task is done. *)
Fixpoint channel (finished : list TaskResult) : list Response :=
  match finished with
  | [] => []
  | (Some r, _) :: rest => r :: channel rest
  | (None, _) :: rest => channel rest
  end.

(** The end of [contactResponders], after the tasks have finished. *)
Definition reduce (finished : list TaskResult) : option Response * option error :=
  let ocspResponses := channel finished in
  let receive :=
    match ocspResponses with
    | [] => (None, None)
    | r :: _ => (Some r, None)
    end in
  match group_Wait (map snd finished) with
  | Some err => if negb (is_errGotOCSPResponse err) then (None, Some err) else receive
  | None => receive
  end.

Definition contactResponders (ctx : Context) (cfg : config)
  : M (option Response * option error) :=
  if (List.length (OCSPServer (serverCert cfg)) =? 0)%nat then ret (None, None)
  else
    created <- do_CreateRequest (serverCert cfg) (issuer cfg) ;;
    match created with
    | inr _ => ret (None, None)
    | inl requestBytes =>
      now <- time_Now ;;
      let '(requestCtx, userContextUsed) := requestContext ctx now in
      let groupCtx := errgroup_WithContext requestCtx in
      results <- mapM (task userContextUsed groupCtx cfg requestBytes)
                      (OCSPServer (serverCert cfg)) ;;
      ret (reduce (completion E results))
    end.

(* ================================================================== *)
(** ** [Verify] *)
(* ================================================================== *)

Definition errNoChains : error :=
  errors_New "no verified certificate chains reported after TLS handshake".

Definition errNoCerts : error :=
  errors_New "verified chain contained no certificates".

(** The end of [Verify], from the second test of [res == nil] on: what is
    done with the response the staple or the responders gave, if any. *)
Definition conclude (ocspCfg : config) (res : option Response) : M (option error) :=
  match res with
  | None => ret None
  | Some res =>
    verdict <- verifyResponse ocspCfg res ;;
    match verdict with
    | Some err => ret (Some (newOCSPError err))
    | None => ret None
    end
  end.

Definition Verify (ctx : Context) (connState : ConnectionState) : M (option error) :=
  match VerifiedChains connState with
  | [] => ret (Some (newOCSPError errNoChains))
  | certChain :: _ =>
    if (List.length certChain =? 0)%nat then ret (Some (newOCSPError errNoCerts))
    else
      built <- do_newConfig certChain ;;
      match built with
      | inr err => ret (Some (newOCSPError err))
      | inl ocspCfg =>
        stapled <- parseStaple ocspCfg (OCSPResponse connState) ;;
        match stapled with
        | (_, Some err) => ret (Some (newOCSPError err))
        | (Some res, None) => conclude ocspCfg (Some res)
        | (None, None) =>
          queried <- contactResponders ctx ocspCfg ;;
          match queried with
          | (_, Some err) => ret (Some (newOCSPError err))
          | (res, None) => conclude ocspCfg res
          end
        end
      end
  end.

End Program.

(* ================================================================== *)
(** ** The error classes of the design, by the place an error is built *)
(* ================================================================== *)

(** The two errors [Verify] builds itself when the chains are unusable. *)
Definition ConfigError (e : error) : Prop :=
  e = errNoChains \/ e = errNoCerts.

(** The errors [parseStaple] builds. *)
Definition StapleError (e : error) : Prop :=
  e = errMustStaple \/ exists cause, e = fmt_Errorf_staple cause.

(** The errors [verifyResponse] builds. *)
Definition ResponseInvalidError (e : error) : Prop :=
  match e with
  | fmt_Errorf_thisUpdate _ _ => True
  | fmt_Errorf_nextUpdate _ _ => True
  | errors_New msg => msg = "certificate is revoked"%string
  | _ => False
  end.

(** The test a task applies to a transport error before it gives up the
    whole query: the error is a [*url.Error] that reports a timeout or
    wraps [context.Canceled]. *)
Definition cancelled_or_timed_out (err : error) : Prop :=
  exists Op U inner,
    err = url_Error Op U inner /\
    (error_Timeout inner = true \/ inner = context_Canceled).

(** The order of completion is some order of the tasks that ran. *)
Definition completes_all (E : Env) : Prop :=
  forall results, Permutation (completion E results) results.

(** The three ways a task can end. *)
Inductive TaskEnd (E : Env) (userContextUsed : bool) : TaskResult -> Prop :=
| task_quiet :
    TaskEnd E userContextUsed (None, None)
| task_conclusive (ocspResponse : Response) :
    Status ocspResponse <> ocsp_Unknown ->
    TaskEnd E userContextUsed (Some ocspResponse, Some errGotOCSPResponse)
| task_fatal (request : Request) (err : error) :
    userContextUsed = true ->
    http_Do E request = inr err ->
    cancelled_or_timed_out err ->
    TaskEnd E userContextUsed (None, Some (newOCSPError err)).

(** [grows Q w w']: from [w] to [w'] the clock was not read, and every
    request handed to the HTTP client in between satisfies [Q]. *)
Definition grows (Q : Request -> Prop) (w w' : World) : Prop :=
  ticks w' = ticks w /\
  exists events, trace w' = trace w ++ events /\ Forall Q (http_calls events).

(** What a finished task of a query may have left, for the reduction. *)
Definition sound_task (E : Env) (userContextUsed : bool) (cfg : config)
  (r : TaskResult) : Prop :=
  TaskEnd E userContextUsed r /\
  forall resp, fst r = Some resp ->
    exists httpBytes,
      ocsp_ParseResponseForCert E httpBytes (serverCert cfg) (issuer cfg) = inl resp.

(** The calls only [contactResponders] makes to the codec and the HTTP
    client. *)
Definition query_event (e : Event) : bool :=
  match e with
  | call_CreateRequest => true
  | call_http_Do _ => true
  | _ => false
  end.

(** The requests the tasks are due to send: for each endpoint, in order,
    the request [http.NewRequest] builds for it, under the context of the
    group; none for an endpoint it builds no request for. *)
Definition requests_for (E : Env) (groupCtx : Context) (requestBytes : bytes)
  (endpoints : list string) : list Request :=
  flat_map (fun endpoint =>
              match http_NewRequest E "POST" endpoint requestBytes with
              | inl request => [WithContext request groupCtx]
              | inr _ => []
              end) endpoints.

(** The two time checks of [verifyResponse], at a given current time. *)
Definition in_window (res : Response) (currTime : Time) : Prop :=
  After (ThisUpdate res) currTime = false /\
  (IsZero (NextUpdate res) = true \/ Before (NextUpdate res) currTime = false).

(* ================================================================== *)
(** ** A concrete environment, to run the program on *)
(* ================================================================== *)

Module Sample.

(** Some instant, with a monotonic reading. *)
Definition t0 : Time := mkTime 63900000000 0 (Some 7000000000).

Definition hour : Z := 3600.

Definition clock (n : nat) : Time :=
  mkTime (sec t0 + Z.of_nat n) 0 (Some (7000000000 + Z.of_nat n * Second)).

Definition wall (s : Z) : Time := mkTime s 0 None.

Definition goodResponse : Response :=
  mkResponse ocsp_Good (wall (sec t0 - hour)) (wall (sec t0 + hour)).
Definition revokedResponse : Response :=
  mkResponse ocsp_Revoked (wall (sec t0 - hour)) (wall (sec t0 + hour)).
Definition unknownResponse : Response :=
  mkResponse ocsp_Unknown (wall (sec t0 - hour)) (wall (sec t0 + hour)).
Definition futureResponse : Response :=
  mkResponse ocsp_Good (wall (sec t0 + hour)) (wall (sec t0 + 2 * hour)).
Definition staleResponse : Response :=
  mkResponse ocsp_Good (wall (sec t0 - 2 * hour)) (wall (sec t0 - hour)).

Definition mustStapleExt : Extension :=
  mkExtension [1; 3; 6; 1; 5; 5; 7; 1; 24] false [Byte.x30; Byte.x03].

Definition responders : list string :=
  ["http://refused.example"; "http://ocsp.example"]%string.

Definition caCert : Certificate := mkCertificate [Byte.x01] [] [].
Definition leaf : Certificate := mkCertificate [Byte.x02] [] responders.
Definition leafMustStaple : Certificate :=
  mkCertificate [Byte.x03] [mustStapleExt] responders.
Definition leafNoResponder : Certificate := mkCertificate [Byte.x04] [] [].
(** A leaf the codec cannot build a request for. *)
Definition leafUnencodable : Certificate := mkCertificate [] [] responders.

Definition cfg : config := mkConfig leaf caCert.
Definition cfgMustStaple : config := mkConfig leafMustStaple caCert.

Definition resolve (certChain : list Certificate) : config + error :=
  match certChain with
  | l :: i :: _ => inl (mkConfig l i)
  | [l] => inl (mkConfig l l)
  | [] => inr (errors_New "empty chain")
  end.

(** A toy codec: the first byte of a response says what it decodes to. *)
Definition decode (data : bytes) (cert iss : Certificate) : Response + error :=
  match data with
  | Byte.x00 :: _ => inl goodResponse
  | Byte.x01 :: _ => inl revokedResponse
  | Byte.x02 :: _ => inl unknownResponse
  | _ => inr (errors_New "ocsp: malformed response")
  end.

Definition encode (cert iss : Certificate) : bytes + error :=
  match Raw cert with
  | [] => inr (errors_New "ocsp: cannot encode request")
  | raw => inl (Byte.x30 :: raw)
  end.

Definition newRequest (method url : string) (body : bytes) : Request + error :=
  if String.eqb url "" then inr (errors_New "parse: empty url")
  else inl (mkRequest method url body backgroundCtx).

Definition refused (url : string) : error :=
  url_Error "Post" url (net_error false "connect: connection refused").

(** One responder refuses the connection, the other answers Good. *)
Definition transport (request : Request) : HTTPResponse + error :=
  if String.eqb (URL request) "http://refused.example" then inr (refused (URL request))
  else inl (mkHTTPResponse 200 (inl [Byte.x00])).

(** A network on which every request is cut short by cancellation. *)
Definition transportCancelled (request : Request) : HTTPResponse + error :=
  inr (url_Error "Post" (URL request) context_Canceled).

(** A network on which nobody listens. *)
Definition transportDown (request : Request) : HTTPResponse + error :=
  inr (refused (URL request)).

Definition env : Env :=
  mkEnv clock resolve decode encode newRequest transport (fun results => results).

Definition envCancelled : Env :=
  mkEnv clock resolve decode encode newRequest transportCancelled (fun results => results).

Definition envDown : Env :=
  mkEnv clock resolve decode encode newRequest transportDown (fun results => results).

(** A caller context that expires two seconds after [t0], and one that
    expires a minute after it. *)
Definition ctxShort : Context :=
  deadlineCtx backgroundCtx (mkTime (sec t0 + 2) 0 (Some 9000000000)).
Definition ctxLong : Context :=
  deadlineCtx backgroundCtx (mkTime (sec t0 + 60) 0 (Some 67000000000)).

Definition conn (certChain : list Certificate) (staple : bytes) : ConnectionState :=
  mkConnectionState [certChain] staple.

End Sample.

(** More networks and connections to run the program on. *)
Module Cases.

Definition printer : Printer :=
  mkPrinter (fun t => "some time"%string) (fun s => ("<" ++ s ++ ">")%string).

(** A responder that answers every request with the given status and body. *)
Definition transportAnswering (status : Z) (body : bytes + error)
  (request : Request) : HTTPResponse + error :=
  inl (mkHTTPResponse status body).

Definition envAnswering (status : Z) (body : bytes + error) : Env :=
  mkEnv Sample.clock Sample.resolve Sample.decode Sample.encode Sample.newRequest
        (transportAnswering status body) (fun results => results).

(** A resolver that fails. *)
Definition envNoConfig : Env :=
  mkEnv Sample.clock (fun _ => inr (errors_New "no issuer"))
        Sample.decode Sample.encode Sample.newRequest
        Sample.transport (fun results => results).

Definition chain : list Certificate := [Sample.leaf; Sample.caCert].
Definition chainMustStaple : list Certificate :=
  [Sample.leafMustStaple; Sample.caCert].
Definition chainNoResponder : list Certificate :=
  [Sample.leafNoResponder; Sample.caCert].

Definition cancelled (url : string) : error :=
  url_Error "Post" url context_Canceled.

End Cases.

(* ================================================================== *)
(** * Properties *)
(* ================================================================== *)

(** ** Order of instants *)

Lemma After_Before_swap (t u : Time) : After t u = Before u t.
Proof.
  unfold After, Before.
  destruct (mono t), (mono u); try reflexivity;
    rewrite (Z.eqb_sym (sec t) (sec u)); reflexivity.
Qed.

Lemma Before_not_After (t u : Time) : Before t u = true -> After t u = false.
Proof.
  unfold After, Before.
  destruct (mono t) as [a|], (mono u) as [b|]; intros H;
    repeat match goal with
    | H : _ || _ = true |- _ => apply orb_true_iff in H; destruct H as [H|H]
    | H : _ && _ = true |- _ => apply andb_true_iff in H; destruct H as [? H]
    | H : (_ <? _) = true |- _ => apply Z.ltb_lt in H
    | H : (_ =? _) = true |- _ => apply Z.eqb_eq in H
    end;
    try (apply Z.ltb_ge; lia);
    apply orb_false_iff; split;
    try (apply Z.ltb_ge; lia);
    apply andb_false_iff;
    try (right; apply Z.ltb_ge; lia);
    left; apply Z.eqb_neq; lia.
Qed.

Lemma After_not_Before (t u : Time) : After t u = true -> Before t u = false.
Proof.
  rewrite After_Before_swap. intros H.
  rewrite <- After_Before_swap. now apply Before_not_After.
Qed.

(** ** Running the monad *)

Lemma bind_run {A B : Type} (m : M A) (k : A -> M B) (w : World) :
  bind m k w = k (fst (m w)) (snd (m w)).
Proof. unfold bind. destruct (m w); reflexivity. Qed.

Lemma time_Now_run (E : Env) (w : World) :
  time_Now E w =
  (time_Now_at E (ticks w), mkWorld (S (ticks w)) (trace w ++ [call_time_Now])).
Proof. reflexivity. Qed.

Lemma do_newConfig_run (E : Env) (certChain : list Certificate) (w : World) :
  do_newConfig E certChain w =
  (newConfig E certChain,
   mkWorld (ticks w) (trace w ++ [call_newConfig certChain])).
Proof. reflexivity. Qed.

Lemma do_CreateRequest_run (E : Env) (cert iss : Certificate) (w : World) :
  do_CreateRequest E cert iss w =
  (ocsp_CreateRequest E cert iss,
   mkWorld (ticks w) (trace w ++ [call_CreateRequest])).
Proof. reflexivity. Qed.

Lemma do_ParseResponseForCert_run (E : Env) (data : bytes)
  (cert iss : Certificate) (w : World) :
  do_ParseResponseForCert E data cert iss w =
  (ocsp_ParseResponseForCert E data cert iss,
   mkWorld (ticks w) (trace w ++ [call_ParseResponseForCert data])).
Proof. reflexivity. Qed.

Lemma do_http_run (E : Env) (request : Request) (w : World) :
  do_http E request w =
  (http_Do E request,
   mkWorld (ticks w) (trace w ++ [call_http_Do request])).
Proof. reflexivity. Qed.

(** ** [verifyResponse] *)

(** What [verifyResponse] returns, as a function of the clock reading. *)
Lemma verifyResponse_run (E : Env) (cfg : config) (res : Response) (w : World) :
  verifyResponse E cfg res w =
  (let currTime := UTC (time_Now_at E (ticks w)) in
   if After (ThisUpdate res) currTime then
     Some (fmt_Errorf_thisUpdate (ThisUpdate res) currTime)
   else if negb (IsZero (NextUpdate res)) && Before (NextUpdate res) currTime then
     Some (fmt_Errorf_nextUpdate (NextUpdate res) currTime)
   else if Status res =? ocsp_Revoked then Some (errors_New "certificate is revoked")
   else None,
   mkWorld (S (ticks w)) (trace w ++ [call_time_Now])).
Proof.
  unfold verifyResponse. rewrite bind_run, time_Now_run. cbn [fst snd].
  destruct (After _ _); [reflexivity|].
  destruct (negb _ && _); [reflexivity|].
  destruct (_ =? _); reflexivity.
Qed.

Lemma stale_check_passes (next currTime : Time) :
  IsZero next = true \/ Before next currTime = false ->
  negb (IsZero next) && Before next currTime = false.
Proof.
  intros [H|H]; rewrite H; [reflexivity | apply andb_false_r].
Qed.

Lemma stale_check_passes_inv (next currTime : Time) :
  negb (IsZero next) && Before next currTime = false ->
  IsZero next = true \/ Before next currTime = false.
Proof.
  destruct (IsZero next); [now left|]. cbn. now right.
Qed.

(** C4.  [verifyResponse] applies three checks against the current UTC
    time, in this order: a [thisUpdate] after the current time is an error
    whatever the rest of the response says; otherwise a non-zero
    [nextUpdate] before the current time is an error whatever the status;
    otherwise status Revoked is an error; and there is no error exactly when
    all three checks pass.  Each error is a [ResponseInvalidError], and a
    Good response with [thisUpdate] before and [nextUpdate] after the current
    time gets no error. *)
Theorem verifyResponse_checks_in_order
  (E : Env) (cfg : config) (res : Response) (w : World) :
  (After (ThisUpdate res) (UTC (time_Now_at E (ticks w))) = true ->
   result (verifyResponse E cfg res) w =
   Some (fmt_Errorf_thisUpdate (ThisUpdate res) (UTC (time_Now_at E (ticks w)))))
  /\
  (After (ThisUpdate res) (UTC (time_Now_at E (ticks w))) = false ->
   IsZero (NextUpdate res) = false ->
   Before (NextUpdate res) (UTC (time_Now_at E (ticks w))) = true ->
   result (verifyResponse E cfg res) w =
   Some (fmt_Errorf_nextUpdate (NextUpdate res) (UTC (time_Now_at E (ticks w)))))
  /\
  (After (ThisUpdate res) (UTC (time_Now_at E (ticks w))) = false ->
   IsZero (NextUpdate res) = true \/
   Before (NextUpdate res) (UTC (time_Now_at E (ticks w))) = false ->
   Status res = ocsp_Revoked ->
   result (verifyResponse E cfg res) w = Some (errors_New "certificate is revoked"))
  /\
  (result (verifyResponse E cfg res) w = None <->
   After (ThisUpdate res) (UTC (time_Now_at E (ticks w))) = false /\
   (IsZero (NextUpdate res) = true \/
    Before (NextUpdate res) (UTC (time_Now_at E (ticks w))) = false) /\
   Status res <> ocsp_Revoked)
  /\
  (forall e, result (verifyResponse E cfg res) w = Some e -> ResponseInvalidError e)
  /\
  (Status res = ocsp_Good ->
   Before (ThisUpdate res) (UTC (time_Now_at E (ticks w))) = true ->
   After (NextUpdate res) (UTC (time_Now_at E (ticks w))) = true ->
   result (verifyResponse E cfg res) w = None).
Proof.
  unfold result. rewrite verifyResponse_run. cbn [fst].
  split; [| split; [| split; [| split; [| split]]]].
  - intros ->. reflexivity.
  - intros -> -> ->. reflexivity.
  - intros -> H ->. rewrite (stale_check_passes _ _ H). reflexivity.
  - split.
    + destruct (After _ _); [discriminate|].
      destruct (negb _ && _) eqn:Hs; [discriminate|].
      destruct (Status res =? ocsp_Revoked) eqn:Hr; [discriminate|].
      intros _. split; [reflexivity|].
      split; [now apply stale_check_passes_inv | now apply Z.eqb_neq].
    + intros (-> & H & Hr). rewrite (stale_check_passes _ _ H).
      apply Z.eqb_neq in Hr. rewrite Hr. reflexivity.
  - intros e.
    destruct (After _ _); [intros [= <-]; exact I|].
    destruct (negb _ && _); [intros [= <-]; exact I|].
    destruct (_ =? _); [intros [= <-]; reflexivity | discriminate].
  - intros Hg Hb Ha.
    rewrite (Before_not_After _ _ Hb).
    rewrite (After_not_Before _ _ Ha), andb_false_r, Hg. reflexivity.
Qed.

(** The four responses of the design's test list, run at instant
    [Sample.t0]: [thisUpdate] an hour ahead, [nextUpdate] an hour ago,
    Revoked, and Good inside its window. *)
Lemma verifyResponse_checks_in_order_witness :
  result (verifyResponse Sample.env Sample.cfg Sample.futureResponse) World0
  = Some (fmt_Errorf_thisUpdate (Sample.wall 63900003600) (Sample.wall 63900000000))
  /\ result (verifyResponse Sample.env Sample.cfg Sample.staleResponse) World0
  = Some (fmt_Errorf_nextUpdate (Sample.wall 63899996400) (Sample.wall 63900000000))
  /\ result (verifyResponse Sample.env Sample.cfg Sample.revokedResponse) World0
  = Some (errors_New "certificate is revoked")
  /\ result (verifyResponse Sample.env Sample.cfg Sample.goodResponse) World0 = None.
Proof.
  split; [| split; [| split]].
  - apply (verifyResponse_checks_in_order
             Sample.env Sample.cfg Sample.futureResponse World0).
    reflexivity.
  - apply (verifyResponse_checks_in_order
             Sample.env Sample.cfg Sample.staleResponse World0); reflexivity.
  - apply (verifyResponse_checks_in_order
             Sample.env Sample.cfg Sample.revokedResponse World0);
      [reflexivity | right; reflexivity | reflexivity].
  - apply (verifyResponse_checks_in_order
             Sample.env Sample.cfg Sample.goodResponse World0); reflexivity.
Defined.

(** C10.  Once the two time checks pass ([thisUpdate] not after the current
    time, [nextUpdate] zero or not before it), [verifyResponse] returns no
    error for every status other than Revoked; status Unknown is one of
    them. *)
Theorem verifyResponse_accepts_unless_revoked
  (E : Env) (cfg : config) (res : Response) (w : World) :
  After (ThisUpdate res) (UTC (time_Now_at E (ticks w))) = false ->
  IsZero (NextUpdate res) = true \/
  Before (NextUpdate res) (UTC (time_Now_at E (ticks w))) = false ->
  (Status res <> ocsp_Revoked -> result (verifyResponse E cfg res) w = None)
  /\ (Status res = ocsp_Unknown -> result (verifyResponse E cfg res) w = None).
Proof.
  intros Ht Hn.
  assert (Hgen : Status res <> ocsp_Revoked ->
                 result (verifyResponse E cfg res) w = None).
  { intros Hr. unfold result. rewrite verifyResponse_run. cbn [fst].
    rewrite Ht, (stale_check_passes _ _ Hn).
    apply Z.eqb_neq in Hr. rewrite Hr. reflexivity. }
  split; [exact Hgen|].
  intros Hu. apply Hgen. rewrite Hu. discriminate.
Qed.

Lemma verifyResponse_accepts_unless_revoked_witness :
  After (ThisUpdate Sample.unknownResponse)
        (UTC (time_Now_at Sample.env (ticks World0))) = false
  /\ Before (NextUpdate Sample.unknownResponse)
            (UTC (time_Now_at Sample.env (ticks World0))) = false
  /\ Status Sample.unknownResponse = ocsp_Unknown
  /\ result (verifyResponse Sample.env Sample.cfg Sample.unknownResponse) World0 = None.
Proof.
  split; [reflexivity | split; [reflexivity | split; [reflexivity |]]].
  apply (verifyResponse_accepts_unless_revoked
           Sample.env Sample.cfg Sample.unknownResponse World0);
    [reflexivity | right; reflexivity | reflexivity].
Defined.

(** ** [parseStaple] *)

Lemma ObjectIdentifier_Equal_eq (oi other : ObjectIdentifier) :
  ObjectIdentifier_Equal oi other = true <-> oi = other.
Proof.
  revert other. induction oi as [|a oi IH]; intros [|b other]; cbn;
    try (split; [discriminate | discriminate]); [tauto|].
  rewrite andb_true_iff, Z.eqb_eq, IH. split.
  - intros [-> ->]. reflexivity.
  - intros [= -> ->]. now split.
Qed.

(** The flag is set exactly when some extension of the leaf has the
    Must-Staple OID. *)
Lemma mustStaple_iff (cfg : config) :
  mustStaple cfg = true <->
  exists extension,
    In extension (Extensions (serverCert cfg)) /\
    Id extension = [1; 3; 6; 1; 5; 5; 7; 1; 24].
Proof.
  unfold mustStaple. rewrite existsb_exists.
  split; intros (x & Hin & Hx); exists x; (split; [exact Hin|]);
    now apply ObjectIdentifier_Equal_eq.
Qed.

Lemma length_zero_iff {A : Type} (l : list A) :
  (List.length l =? 0)%nat = true <-> l = [].
Proof. destruct l; cbn; split; congruence. Qed.

Lemma length_nonzero {A : Type} (l : list A) :
  l <> [] -> (List.length l =? 0)%nat = false.
Proof. destruct l; [congruence | reflexivity]. Qed.

(** What [parseStaple] returns and which call it makes. *)
Lemma parseStaple_run (E : Env) (cfg : config) (staple : bytes) (w : World) :
  parseStaple E cfg staple w =
  match staple with
  | [] => (if mustStaple cfg then (None, Some errMustStaple) else (None, None), w)
  | _ :: _ =>
    (match ocsp_ParseResponseForCert E staple (serverCert cfg) (issuer cfg) with
     | inr err => (None, Some (fmt_Errorf_staple err))
     | inl parsedResponse => (Some parsedResponse, None)
     end,
     mkWorld (ticks w) (trace w ++ [call_ParseResponseForCert staple]))
  end.
Proof.
  unfold parseStaple. destruct staple as [|b staple].
  - cbn. destruct (mustStaple cfg); reflexivity.
  - cbn [List.length Nat.eqb]. rewrite andb_false_r.
    unfold do_ParseResponseForCert, bind, emit, ret.
    destruct (ocsp_ParseResponseForCert _ _ _ _); reflexivity.
Qed.

(** ** [Verify], step by step *)

Lemma conclude_run (E : Env) (cfg : config) (res : option Response) (w : World) :
  conclude E cfg res w =
  match res with
  | None => (None, w)
  | Some r =>
    (option_map newOCSPError (result (verifyResponse E cfg r) w),
     mkWorld (S (ticks w)) (trace w ++ [call_time_Now]))
  end.
Proof.
  unfold conclude, result. destruct res as [r|]; [|reflexivity].
  rewrite bind_run, verifyResponse_run. cbn [fst snd].
  destruct (After _ _); [reflexivity|].
  destruct (negb _ && _); [reflexivity|].
  destruct (_ =? _); reflexivity.
Qed.

(** [Verify] up to the staple: the chain checks pass and [newConfig]
    succeeds. *)
Lemma Verify_to_staple (E : Env) (ctx : Context) (connState : ConnectionState)
  (certChain : list Certificate) (rest : list (list Certificate))
  (cfg : config) (w : World) :
  VerifiedChains connState = certChain :: rest ->
  certChain <> [] ->
  newConfig E certChain = inl cfg ->
  Verify E ctx connState w =
  (stapled <- parseStaple E cfg (OCSPResponse connState) ;;
   match stapled with
   | (_, Some err) => ret (Some (newOCSPError err))
   | (Some res, None) => conclude E cfg (Some res)
   | (None, None) =>
     queried <- contactResponders E ctx cfg ;;
     match queried with
     | (_, Some err) => ret (Some (newOCSPError err))
     | (res, None) => conclude E cfg res
     end
   end) (mkWorld (ticks w) (trace w ++ [call_newConfig certChain])).
Proof.
  intros Hc Hne Hcfg. unfold Verify. rewrite Hc, (length_nonzero _ Hne).
  rewrite bind_run, do_newConfig_run. cbn [fst snd].
  rewrite Hcfg. reflexivity.
Qed.

(** With no staple and no Must-Staple, [Verify] is the responder query
    followed by the verdict on what it returned. *)
Lemma Verify_without_staple (E : Env) (ctx : Context) (connState : ConnectionState)
  (certChain : list Certificate) (rest : list (list Certificate))
  (cfg : config) (w : World) :
  VerifiedChains connState = certChain :: rest ->
  certChain <> [] ->
  newConfig E certChain = inl cfg ->
  OCSPResponse connState = [] ->
  mustStaple cfg = false ->
  Verify E ctx connState w =
  (queried <- contactResponders E ctx cfg ;;
   match queried with
   | (_, Some err) => ret (Some (newOCSPError err))
   | (res, None) => conclude E cfg res
   end) (mkWorld (ticks w) (trace w ++ [call_newConfig certChain])).
Proof.
  intros Hc Hne Hcfg Hst Hms.
  rewrite (Verify_to_staple E ctx connState certChain rest cfg w Hc Hne Hcfg).
  rewrite bind_run, parseStaple_run, Hst, Hms. reflexivity.
Qed.

(** With a staple that decodes, [Verify] is the verdict on the decoded
    response. *)
Lemma Verify_with_staple (E : Env) (ctx : Context) (connState : ConnectionState)
  (certChain : list Certificate) (rest : list (list Certificate))
  (cfg : config) (res : Response) (w : World) :
  VerifiedChains connState = certChain :: rest ->
  certChain <> [] ->
  newConfig E certChain = inl cfg ->
  OCSPResponse connState <> [] ->
  ocsp_ParseResponseForCert E (OCSPResponse connState) (serverCert cfg) (issuer cfg)
  = inl res ->
  Verify E ctx connState w =
  conclude E cfg (Some res)
    (mkWorld (ticks w)
       (trace w ++ [call_newConfig certChain;
                    call_ParseResponseForCert (OCSPResponse connState)])).
Proof.
  intros Hc Hne Hcfg Hst Hdec.
  rewrite (Verify_to_staple E ctx connState certChain rest cfg w Hc Hne Hcfg).
  rewrite bind_run, parseStaple_run.
  destruct (OCSPResponse connState) as [|b staple] eqn:Hs; [congruence|].
  rewrite Hdec. cbn [fst snd trace ticks]. rewrite <- app_assoc. reflexivity.
Qed.

(** A staple result of [(Some res, None)] can only come from a decoded,
    non-empty staple. *)
Lemma parseStaple_usable (E : Env) (cfg : config) (staple : bytes)
  (res : Response) (w : World) :
  result (parseStaple E cfg staple) w = (Some res, None) ->
  staple <> [] /\
  ocsp_ParseResponseForCert E staple (serverCert cfg) (issuer cfg) = inl res.
Proof.
  unfold result. rewrite parseStaple_run. destruct staple as [|b staple].
  - cbn. destruct (mustStaple cfg); discriminate.
  - cbn [fst]. destruct (ocsp_ParseResponseForCert _ _ _ _) as [r|e];
      [|discriminate].
    intros [= ->]. split; [discriminate | reflexivity].
Qed.

(** A staple result of [(None, None)] can only come from an empty staple on
    a leaf without Must-Staple. *)
Lemma parseStaple_nothing (E : Env) (cfg : config) (staple : bytes) (w : World) :
  result (parseStaple E cfg staple) w = (None, None) ->
  staple = [] /\ mustStaple cfg = false.
Proof.
  unfold result. rewrite parseStaple_run. destruct staple as [|b staple].
  - cbn. destruct (mustStaple cfg); [discriminate | now split].
  - cbn [fst]. destruct (ocsp_ParseResponseForCert _ _ _ _); discriminate.
Qed.

(** C5.  On an empty staple [parseStaple] returns the Must-Staple error
    when the leaf carries the Must-Staple extension (an extension whose OID
    is 1.3.6.1.5.5.7.1.24), and returns neither a response nor an error, and
    calls nothing, when it does not; in the second case [Verify] goes on to
    [contactResponders] and its result is decided by what the query
    returns. *)
Theorem parseStaple_empty_staple
  (E : Env) (ctx : Context) (cfg : config) (w : World) :
  (mustStaple cfg = true <->
   exists extension,
     In extension (Extensions (serverCert cfg)) /\
     Id extension = [1; 3; 6; 1; 5; 5; 7; 1; 24])
  /\
  (mustStaple cfg = true ->
   parseStaple E cfg [] w = ((None, Some errMustStaple), w) /\
   StapleError errMustStaple)
  /\
  (mustStaple cfg = false -> parseStaple E cfg [] w = ((None, None), w))
  /\
  (mustStaple cfg = false ->
   forall connState certChain rest,
     VerifiedChains connState = certChain :: rest ->
     certChain <> [] ->
     newConfig E certChain = inl cfg ->
     OCSPResponse connState = [] ->
     Verify E ctx connState w =
     (queried <- contactResponders E ctx cfg ;;
      match queried with
      | (_, Some err) => ret (Some (newOCSPError err))
      | (res, None) => conclude E cfg res
      end) (mkWorld (ticks w) (trace w ++ [call_newConfig certChain]))).
Proof.
  split; [apply mustStaple_iff|].
  split; [| split].
  - intros H. rewrite parseStaple_run, H. split; [reflexivity | now left].
  - intros H. rewrite parseStaple_run, H. reflexivity.
  - intros H connState certChain rest Hc Hne Hcfg Hst.
    now apply (Verify_without_staple E ctx connState certChain rest cfg w).
Qed.

Lemma parseStaple_empty_staple_witness :
  parseStaple Sample.env Sample.cfgMustStaple [] World0
  = ((None, Some errMustStaple), World0)
  /\ parseStaple Sample.env Sample.cfg [] World0 = ((None, None), World0)
  /\ result (Verify Sample.env Sample.ctxShort
               (Sample.conn [Sample.leaf; Sample.caCert] [])) World0 = None.
Proof.
  split; [| split].
  - apply (parseStaple_empty_staple
             Sample.env Sample.ctxShort Sample.cfgMustStaple World0).
    reflexivity.
  - apply (parseStaple_empty_staple
             Sample.env Sample.ctxShort Sample.cfg World0).
    reflexivity.
  - unfold result.
    rewrite (proj2 (proj2 (proj2 (parseStaple_empty_staple
               Sample.env Sample.ctxShort Sample.cfg World0)))
             eq_refl
             (Sample.conn [Sample.leaf; Sample.caCert] [])
             [Sample.leaf; Sample.caCert] []
             eq_refl ltac:(discriminate) eq_refl eq_refl).
    reflexivity.
Defined.

(** C6.  On a non-empty staple the result of [parseStaple] is the codec's:
    an error of the codec comes back wrapped in the staple error, and a
    decoded response comes back as it is with no error; the Must-Staple
    flag of the leaf plays no part. *)
Theorem parseStaple_nonempty_staple
  (E : Env) (cfg : config) (staple : bytes) (w : World) :
  staple <> [] ->
  (forall cause,
     ocsp_ParseResponseForCert E staple (serverCert cfg) (issuer cfg) = inr cause ->
     result (parseStaple E cfg staple) w = (None, Some (fmt_Errorf_staple cause)) /\
     StapleError (fmt_Errorf_staple cause))
  /\
  (forall parsedResponse,
     ocsp_ParseResponseForCert E staple (serverCert cfg) (issuer cfg)
     = inl parsedResponse ->
     result (parseStaple E cfg staple) w = (Some parsedResponse, None)).
Proof.
  intros Hne. unfold result. rewrite parseStaple_run.
  destruct staple as [|b staple]; [congruence|]. cbn [fst].
  split.
  - intros cause ->. split; [reflexivity | right; now exists cause].
  - intros parsedResponse ->. reflexivity.
Qed.

(** A malformed staple on a leaf without and with Must-Staple, and a staple
    that decodes. *)
Lemma parseStaple_nonempty_staple_witness :
  result (parseStaple Sample.env Sample.cfg [Byte.xff]) World0
  = (None, Some (fmt_Errorf_staple (errors_New "ocsp: malformed response")))
  /\ result (parseStaple Sample.env Sample.cfgMustStaple [Byte.xff]) World0
  = (None, Some (fmt_Errorf_staple (errors_New "ocsp: malformed response")))
  /\ result (parseStaple Sample.env Sample.cfgMustStaple [Byte.x00]) World0
  = (Some Sample.goodResponse, None).
Proof.
  split; [| split].
  - apply (parseStaple_nonempty_staple Sample.env Sample.cfg [Byte.xff] World0);
      [discriminate | reflexivity].
  - apply (parseStaple_nonempty_staple
             Sample.env Sample.cfgMustStaple [Byte.xff] World0);
      [discriminate | reflexivity].
  - apply (parseStaple_nonempty_staple
             Sample.env Sample.cfgMustStaple [Byte.x00] World0);
      [discriminate | reflexivity].
Defined.

(** C7.  When there is no verified chain, or the first chain has no
    certificate, [Verify] returns a [ConfigError] (wrapped in the package's
    error) and has called no collaborator: not [newConfig], not the codec,
    not the clock, not the HTTP client. *)
Theorem Verify_rejects_empty_chains
  (E : Env) (ctx : Context) (connState : ConnectionState) (w : World) :
  VerifiedChains connState = [] \/
  (exists rest, VerifiedChains connState = [] :: rest) ->
  exists e,
    ConfigError e /\
    Verify E ctx connState w = (Some (newOCSPError e), w).
Proof.
  intros [H | [rest H]]; unfold Verify; rewrite H.
  - exists errNoChains. split; [now left | reflexivity].
  - exists errNoCerts. split; [now right | reflexivity].
Qed.

Lemma Verify_rejects_empty_chains_witness :
  (exists e, ConfigError e /\
     Verify Sample.env Sample.ctxShort (mkConnectionState [] [Byte.x00]) World0
     = (Some (newOCSPError e), World0))
  /\ (exists e, ConfigError e /\
     Verify Sample.env Sample.ctxShort
       (mkConnectionState [[]; [Sample.leaf]] [Byte.x00]) World0
     = (Some (newOCSPError e), World0)).
Proof.
  split.
  - apply (Verify_rejects_empty_chains Sample.env Sample.ctxShort
             (mkConnectionState [] [Byte.x00]) World0).
    left. reflexivity.
  - apply (Verify_rejects_empty_chains Sample.env Sample.ctxShort
             (mkConnectionState [[]; [Sample.leaf]] [Byte.x00]) World0).
    right. exists [[Sample.leaf]]. reflexivity.
Defined.

(** ** The tasks of [contactResponders] *)

Lemma http_calls_app (t u : list Event) :
  http_calls (t ++ u) = http_calls t ++ http_calls u.
Proof.
  induction t as [|e t IH]; [reflexivity|].
  destruct e; cbn; rewrite IH; reflexivity.
Qed.

Lemma grows_refl (Q : Request -> Prop) (w : World) : grows Q w w.
Proof.
  split; [reflexivity|]. exists []. rewrite app_nil_r. split; [reflexivity|].
  constructor.
Qed.

Lemma grows_trans (Q : Request -> Prop) (w1 w2 w3 : World) :
  grows Q w1 w2 -> grows Q w2 w3 -> grows Q w1 w3.
Proof.
  intros [Ht1 (e1 & He1 & Hq1)] [Ht2 (e2 & He2 & Hq2)].
  split; [congruence|].
  exists (e1 ++ e2). split.
  - rewrite He2, He1, app_assoc. reflexivity.
  - rewrite http_calls_app. apply Forall_app. now split.
Qed.

Lemma grows_step (Q : Request -> Prop) (w : World) (e : Event) :
  Forall Q (http_calls [e]) ->
  grows Q w (mkWorld (ticks w) (trace w ++ [e])).
Proof. intros H. split; [reflexivity|]. now exists [e]. Qed.

(** The test of the task, as a proposition. *)
Lemma fatal_test_iff (userContextUsed : bool) (Op U : string) (inner : error) :
  userContextUsed
  && (error_Timeout (url_Error Op U inner) || is_context_Canceled inner) = true
  <-> userContextUsed = true /\ cancelled_or_timed_out (url_Error Op U inner).
Proof.
  rewrite andb_true_iff, orb_true_iff. cbn [error_Timeout].
  split.
  - intros [Hu Hc]. split; [exact Hu|].
    exists Op, U, inner. split; [reflexivity|].
    destruct Hc as [Hc|Hc]; [now left | right].
    destruct inner; try discriminate. reflexivity.
  - intros [Hu (Op' & U' & inner' & [= -> -> ->] & Hc)].
    split; [exact Hu|].
    destruct Hc as [Hc | ->]; [now left | now right].
Qed.

(** What a task does once its request is built and the transport fails. *)
Lemma task_transport_failure (E : Env) (userContextUsed : bool)
  (groupCtx : Context) (cfg : config) (requestBytes : bytes)
  (endpoint : string) (request : Request) (err : error) (w : World) :
  http_NewRequest E "POST" endpoint requestBytes = inl request ->
  http_Do E (WithContext request groupCtx) = inr err ->
  result (task E userContextUsed groupCtx cfg requestBytes endpoint) w =
  match err with
  | url_Error _ _ inner =>
    if userContextUsed && (error_Timeout err || is_context_Canceled inner)
    then (None, Some (newOCSPError err))
    else (None, None)
  | _ => (None, None)
  end.
Proof.
  intros Hreq Hdo. unfold result, task. rewrite Hreq.
  cbv zeta. rewrite bind_run, do_http_run. cbn [fst snd]. rewrite Hdo.
  destruct err; try reflexivity.
  destruct (userContextUsed && _); reflexivity.
Qed.

Lemma task_end (E : Env) (userContextUsed : bool) (groupCtx : Context)
  (cfg : config) (requestBytes : bytes) (endpoint : string) (w : World) :
  TaskEnd E userContextUsed
    (result (task E userContextUsed groupCtx cfg requestBytes endpoint) w).
Proof.
  unfold result, task.
  destruct (http_NewRequest E "POST" endpoint requestBytes) as [request|e];
    [|constructor].
  cbv zeta. rewrite bind_run, do_http_run. cbn [fst snd].
  destruct (http_Do E (WithContext request groupCtx)) as [resp|err] eqn:Hdo.
  - destruct (negb (StatusCode resp =? 200)); [constructor|].
    destruct (ReadAll resp) as [httpBytes|e]; [|constructor].
    rewrite bind_run, do_ParseResponseForCert_run. cbn [fst snd].
    destruct (ocsp_ParseResponseForCert E _ _ _) as [r|e]; [|constructor].
    destruct (Status r =? ocsp_Unknown) eqn:Hs; [constructor|].
    apply task_conclusive. now apply Z.eqb_neq.
  - destruct err; try constructor.
    destruct (userContextUsed && _) eqn:Ht; [|constructor].
    apply fatal_test_iff in Ht. destruct Ht as [Hu Hc].
    now apply (task_fatal E userContextUsed (WithContext request groupCtx)).
Qed.

(** A task reads no clock, and every request it hands to the HTTP client
    carries the context of the group. *)
Lemma task_grows (E : Env) (userContextUsed : bool) (groupCtx : Context)
  (cfg : config) (requestBytes : bytes) (endpoint : string) (w : World) :
  grows (fun request => Ctx request = groupCtx) w
    (after (task E userContextUsed groupCtx cfg requestBytes endpoint) w).
Proof.
  unfold after, task.
  destruct (http_NewRequest E "POST" endpoint requestBytes) as [request|e];
    [|apply grows_refl].
  cbv zeta. rewrite bind_run, do_http_run. cbn [fst snd].
  assert (Hstep : grows (fun r => Ctx r = groupCtx) w
            (mkWorld (ticks w)
               (trace w ++ [call_http_Do (WithContext request groupCtx)]))).
  { apply grows_step. cbn. constructor; [reflexivity | constructor]. }
  destruct (http_Do E (WithContext request groupCtx)) as [resp|err].
  - destruct (negb (StatusCode resp =? 200)); [exact Hstep|].
    destruct (ReadAll resp) as [httpBytes|e]; [|exact Hstep].
    rewrite bind_run, do_ParseResponseForCert_run. cbn [fst snd].
    eapply grows_trans; [exact Hstep|].
    match goal with
    | |- grows _ ?w1 _ =>
      assert (Hp : grows (fun r => Ctx r = groupCtx) w1
                (mkWorld (ticks w1)
                   (trace w1 ++ [call_ParseResponseForCert httpBytes])))
        by (apply grows_step; constructor)
    end.
    destruct (ocsp_ParseResponseForCert E _ _ _) as [r|e]; [|exact Hp].
    destruct (Status r =? ocsp_Unknown); exact Hp.
  - destruct err; try exact Hstep.
    destruct (userContextUsed && _); exact Hstep.
Qed.

Lemma mapM_result_Forall {A B : Type} (f : A -> M B) (P : B -> Prop)
  (l : list A) :
  (forall a, In a l -> forall w, P (result (f a) w)) ->
  forall w, Forall P (result (mapM f l) w).
Proof.
  unfold result. induction l as [|a l IH]; intros H w; cbn [mapM].
  - constructor.
  - rewrite bind_run, bind_run. cbn [ret fst]. constructor.
    + apply H. now left.
    + apply IH. intros a' Ha'. apply H. now right.
Qed.


Lemma mapM_grows {A B : Type} (f : A -> M B) (Q : Request -> Prop) (l : list A) :
  (forall a w, grows Q w (after (f a) w)) ->
  forall w, grows Q w (after (mapM f l) w).
Proof.
  unfold after. intros H. induction l as [|a l IH]; intros w; cbn [mapM].
  - apply grows_refl.
  - rewrite bind_run, bind_run. cbn [ret snd].
    eapply grows_trans; [apply H | apply IH].
Qed.

(** ** The reduction of the task results *)

Lemma group_Wait_quiet (returned : list (option error)) :
  Forall (fun r => r = None \/ r = Some errGotOCSPResponse) returned ->
  group_Wait returned = None \/ group_Wait returned = Some errGotOCSPResponse.
Proof.
  induction 1 as [|r rest [-> | ->] _ IH]; cbn; auto.
Qed.

Lemma channel_empty (finished : list TaskResult) :
  Forall (fun r => fst r = None) finished -> channel finished = [].
Proof.
  induction 1 as [|[published returned] rest Hr _ IH]; [reflexivity|].
  cbn in Hr. subst published. exact IH.
Qed.

(** Without a fatal task the query returns no error. *)
Lemma reduce_no_error (finished : list TaskResult) :
  Forall (fun r => snd r = None \/ snd r = Some errGotOCSPResponse) finished ->
  snd (reduce finished) = None.
Proof.
  intros H. unfold reduce.
  assert (Hw : Forall (fun r => r = None \/ r = Some errGotOCSPResponse)
                 (map snd finished)).
  { apply Forall_map. exact H. }
  destruct (group_Wait_quiet _ Hw) as [-> | ->]; cbn;
    destruct (channel finished); reflexivity.
Qed.

(** Without a fatal and without a conclusive task the query has no
    opinion. *)
Lemma reduce_no_opinion (finished : list TaskResult) :
  Forall (fun r => r = (None, None)) finished ->
  reduce finished = (None, None).
Proof.
  intros H.
  assert (He : snd (reduce finished) = None).
  { apply reduce_no_error. eapply Forall_impl; [|exact H].
    intros r ->. now left. }
  assert (Hc : channel finished = []).
  { apply channel_empty. eapply Forall_impl; [|exact H]. now intros r ->. }
  unfold reduce in *. rewrite Hc in *.
  destruct (group_Wait (map snd finished)) as [err|]; [|reflexivity].
  destruct (negb (is_errGotOCSPResponse err)); [discriminate He | reflexivity].
Qed.






(** ** [contactResponders] *)

(** [contactResponders] once the request payload is built. *)
Lemma contactResponders_run (E : Env) (ctx : Context) (cfg : config)
  (requestBytes : bytes) (w : World) :
  OCSPServer (serverCert cfg) <> [] ->
  ocsp_CreateRequest E (serverCert cfg) (issuer cfg) = inl requestBytes ->
  contactResponders E ctx cfg w =
  (reduce (completion E
     (result (mapM (task E (snd (requestContext ctx (time_Now_at E (ticks w))))
                      (errgroup_WithContext
                         (fst (requestContext ctx (time_Now_at E (ticks w)))))
                      cfg requestBytes)
                (OCSPServer (serverCert cfg)))
        (mkWorld (S (ticks w))
           (trace w ++ [call_CreateRequest; call_time_Now])))),
   after (mapM (task E (snd (requestContext ctx (time_Now_at E (ticks w))))
                  (errgroup_WithContext
                     (fst (requestContext ctx (time_Now_at E (ticks w)))))
                  cfg requestBytes)
            (OCSPServer (serverCert cfg)))
     (mkWorld (S (ticks w))
        (trace w ++ [call_CreateRequest; call_time_Now]))).
Proof.
  intros Hne Hreq. unfold contactResponders.
  rewrite (length_nonzero _ Hne).
  rewrite bind_run, do_CreateRequest_run. cbn [fst snd]. rewrite Hreq.
  rewrite bind_run, time_Now_run. cbn [fst snd ticks trace].
  rewrite <- app_assoc. cbn [app].
  destruct (requestContext ctx (time_Now_at E (ticks w))) as [requestCtx used].
  rewrite bind_run. reflexivity.
Qed.

(** The query reads the clock at most once and hands the HTTP client only
    requests that carry the context [groupCtx] it derived. *)
Lemma contactResponders_requests (E : Env) (ctx : Context) (cfg : config)
  (w : World) :
  exists events,
    trace (after (contactResponders E ctx cfg) w) = trace w ++ events /\
    Forall (fun request =>
              Ctx request =
              errgroup_WithContext
                (fst (requestContext ctx (time_Now_at E (ticks w)))))
           (http_calls events).
Proof.
  destruct (OCSPServer (serverCert cfg)) as [|ep eps] eqn:Hs.
  - exists []. unfold after, contactResponders. rewrite Hs. cbn.
    rewrite app_nil_r. split; [reflexivity | constructor].
  - destruct (ocsp_CreateRequest E (serverCert cfg) (issuer cfg))
      as [requestBytes|e] eqn:Hreq.
    + unfold after.
      rewrite (contactResponders_run E ctx cfg requestBytes w);
        [| rewrite Hs; discriminate | exact Hreq].
      cbn [snd].
      match goal with
      | |- context [after (mapM ?f ?l) ?w1] =>
        destruct (mapM_grows f
                    (fun request =>
                       Ctx request =
                       errgroup_WithContext
                         (fst (requestContext ctx (time_Now_at E (ticks w)))))
                    l (fun a w0 => task_grows E _ _ cfg requestBytes a w0) w1)
          as [_ (events & Hev & Hq)]
      end.
      exists ([call_CreateRequest; call_time_Now] ++ events). split.
      * rewrite Hev. cbn [trace]. rewrite <- app_assoc. reflexivity.
      * rewrite http_calls_app. cbn [http_calls app]. exact Hq.
    + exists [call_CreateRequest]. unfold after, contactResponders.
      rewrite Hs. cbn [List.length Nat.eqb].
      rewrite bind_run, do_CreateRequest_run. cbn [fst snd]. rewrite Hreq.
      split; [reflexivity | constructor].
Qed.

Lemma Add_five_seconds (now : Time) :
  0 <= nsec now < Second ->
  Add now defaultRequestTimeout =
  mkTime (sec now + 5) (nsec now)
         (option_map (fun m => m + 5000000000) (mono now)).
Proof.
  intros H. unfold Add, defaultRequestTimeout, Second in *.
  change (Z.quot (5 * 1000000000) 1000000000) with 5.
  change (Z.rem (5 * 1000000000) 1000000000) with 0.
  rewrite Z.add_0_r.
  destruct (1000000000 <=? nsec now) eqn:H1; [apply Z.leb_le in H1; lia|].
  destruct (nsec now <? 0) eqn:H2; [apply Z.ltb_lt in H2; lia|].
  reflexivity.
Qed.

(** C2.  With [cutoff] the reading of the clock plus five seconds: when the
    caller's context has no deadline, or has one after [cutoff], the request
    context is a child of the caller's context with deadline [cutoff] and
    [userContextUsed] is false; when the caller's deadline is before
    [cutoff], the request context is the caller's context itself and
    [userContextUsed] is true (as it is whenever the deadline is not after
    [cutoff]).  The tasks of the query run with that flag,
    and every request the query hands to the HTTP client carries the group's
    child of that request context. *)
Theorem requestContext_deadline_composition
  (E : Env) (ctx : Context) (cfg : config) (w : World) :
  (0 <= nsec (time_Now_at E (ticks w)) < Second ->
   Add (time_Now_at E (ticks w)) defaultRequestTimeout =
   mkTime (sec (time_Now_at E (ticks w)) + 5) (nsec (time_Now_at E (ticks w)))
          (option_map (fun m => m + 5000000000) (mono (time_Now_at E (ticks w)))))
  /\
  (Deadline ctx = None \/
   (exists deadline,
      Deadline ctx = Some deadline /\
      After deadline (Add (time_Now_at E (ticks w)) defaultRequestTimeout) = true) ->
   requestContext ctx (time_Now_at E (ticks w)) =
   (deadlineCtx ctx (Add (time_Now_at E (ticks w)) defaultRequestTimeout), false)
   /\ Deadline (fst (requestContext ctx (time_Now_at E (ticks w)))) =
      Some (Add (time_Now_at E (ticks w)) defaultRequestTimeout))
  /\
  (forall deadline,
     Deadline ctx = Some deadline ->
     Before deadline (Add (time_Now_at E (ticks w)) defaultRequestTimeout) = true ->
     requestContext ctx (time_Now_at E (ticks w)) = (ctx, true))
  /\
  (forall deadline,
     Deadline ctx = Some deadline ->
     After deadline (Add (time_Now_at E (ticks w)) defaultRequestTimeout) = false ->
     requestContext ctx (time_Now_at E (ticks w)) = (ctx, true))
  /\
  (forall requestBytes,
     OCSPServer (serverCert cfg) <> [] ->
     ocsp_CreateRequest E (serverCert cfg) (issuer cfg) = inl requestBytes ->
     result (contactResponders E ctx cfg) w =
     reduce (completion E
       (result (mapM (task E (snd (requestContext ctx (time_Now_at E (ticks w))))
                        (errgroup_WithContext
                           (fst (requestContext ctx (time_Now_at E (ticks w)))))
                        cfg requestBytes)
                  (OCSPServer (serverCert cfg)))
          (mkWorld (S (ticks w))
             (trace w ++ [call_CreateRequest; call_time_Now])))))
  /\
  (exists events,
     trace (after (contactResponders E ctx cfg) w) = trace w ++ events /\
     Forall (fun request =>
               Ctx request =
               errgroup_WithContext
                 (fst (requestContext ctx (time_Now_at E (ticks w)))))
            (http_calls events)).
Proof.
  split; [apply Add_five_seconds|].
  split; [| split; [| split; [| split]]].
  - intros H.
    assert (Hrc : requestContext ctx (time_Now_at E (ticks w)) =
                  (deadlineCtx ctx
                     (Add (time_Now_at E (ticks w)) defaultRequestTimeout), false)).
    { unfold requestContext, context_WithDeadline.
      destruct H as [-> | (deadline & -> & Ha)]; [reflexivity|].
      rewrite Ha, (After_not_Before _ _ Ha). reflexivity. }
    rewrite Hrc. split; reflexivity.
  - intros deadline Hd Hb. unfold requestContext.
    rewrite Hd, (Before_not_After _ _ Hb). reflexivity.
  - intros deadline Hd Ha. unfold requestContext. rewrite Hd, Ha. reflexivity.
  - intros requestBytes Hne Hreq. unfold result.
    rewrite (contactResponders_run E ctx cfg requestBytes w Hne Hreq).
    reflexivity.
  - apply contactResponders_requests.
Qed.

(** A caller whose deadline is two seconds away keeps its context; a caller
    whose deadline is a minute away, and one with no deadline, get the
    five-second child. *)
Lemma requestContext_deadline_composition_witness :
  requestContext Sample.ctxShort (time_Now_at Sample.env (ticks World0))
  = (Sample.ctxShort, true)
  /\ requestContext Sample.ctxLong (time_Now_at Sample.env (ticks World0))
  = (deadlineCtx Sample.ctxLong
       (mkTime 63900000005 0 (Some 12000000000)), false)
  /\ requestContext backgroundCtx (time_Now_at Sample.env (ticks World0))
  = (deadlineCtx backgroundCtx
       (mkTime 63900000005 0 (Some 12000000000)), false).
Proof.
  split; [| split].
  - apply (proj1 (proj2 (proj2 (requestContext_deadline_composition
             Sample.env Sample.ctxShort Sample.cfg World0)))
             (mkTime 63900000002 0 (Some 9000000000)));
      reflexivity.
  - apply (proj1 (proj2 (requestContext_deadline_composition
             Sample.env Sample.ctxLong Sample.cfg World0))).
    right. exists (mkTime 63900000060 0 (Some 67000000000)).
    split; reflexivity.
  - apply (proj1 (proj2 (requestContext_deadline_composition
             Sample.env backgroundCtx Sample.cfg World0))).
    left. reflexivity.
Defined.

(** When no transport failure can pass the test of the task, every task
    ends quietly or conclusively. *)
Lemma TaskEnd_not_fatal (E : Env) (userContextUsed : bool) (r : TaskResult) :
  (forall request err,
     http_Do E request = inr err ->
     ~ (userContextUsed = true /\ cancelled_or_timed_out err)) ->
  TaskEnd E userContextUsed r ->
  snd r = None \/ snd r = Some errGotOCSPResponse.
Proof.
  intros Hsup [ | resp Hs | request err Hu Hdo Hc ]; cbn; auto.
  exfalso. apply (Hsup request err Hdo). now split.
Qed.

(** When every request fails in the transport and no failure passes the
    test, a task returns nothing. *)
Lemma task_suppressed (E : Env) (userContextUsed : bool) (groupCtx : Context)
  (cfg : config) (requestBytes : bytes) (endpoint : string) (w : World) :
  (forall request, exists err,
     http_Do E request = inr err /\
     ~ (userContextUsed = true /\ cancelled_or_timed_out err)) ->
  result (task E userContextUsed groupCtx cfg requestBytes endpoint) w
  = (None, None).
Proof.
  intros Hall.
  destruct (http_NewRequest E "POST" endpoint requestBytes) as [request|e] eqn:Hrq.
  - destruct (Hall (WithContext request groupCtx)) as (err & Hdo & Hn).
    rewrite (task_transport_failure E userContextUsed groupCtx cfg requestBytes
               endpoint request err w Hrq Hdo).
    destruct err; try reflexivity.
    destruct (userContextUsed && _) eqn:Ht; [|reflexivity].
    apply fatal_test_iff in Ht. contradiction.
  - unfold result, task. rewrite Hrq. reflexivity.
Qed.


Lemma identity_completes_all (E : Env) :
  completion E = (fun results => results) -> completes_all E.
Proof. intros H results. rewrite H. apply Permutation_refl. Qed.


(** C8.  [contactResponders] returns neither a response nor an error, and
    hands no request to the HTTP client, when the leaf lists no OCSP
    responder (then it calls nothing at all) and when the codec fails to
    build the request (then the codec call is all it has done). *)
Theorem contactResponders_nothing_to_query
  (E : Env) (ctx : Context) (cfg : config) (w : World) :
  (OCSPServer (serverCert cfg) = [] ->
   contactResponders E ctx cfg w = ((None, None), w))
  /\
  (forall err,
     ocsp_CreateRequest E (serverCert cfg) (issuer cfg) = inr err ->
     result (contactResponders E ctx cfg) w = (None, None) /\
     http_calls (trace (after (contactResponders E ctx cfg) w))
     = http_calls (trace w) /\
     (OCSPServer (serverCert cfg) <> [] ->
      after (contactResponders E ctx cfg) w
      = mkWorld (ticks w) (trace w ++ [call_CreateRequest]))).
Proof.
  split.
  - intros H. unfold contactResponders. rewrite H. reflexivity.
  - intros err Herr. unfold result, after, contactResponders.
    destruct (OCSPServer (serverCert cfg)) as [|ep eps].
    + cbn. split; [reflexivity | split; [reflexivity | congruence]].
    + cbn [List.length Nat.eqb].
      rewrite bind_run, do_CreateRequest_run. cbn [fst snd]. rewrite Herr.
      cbn [ret fst snd trace]. split; [reflexivity | split; [| reflexivity]].
      rewrite http_calls_app. cbn. apply app_nil_r.
Qed.

Lemma contactResponders_nothing_to_query_witness :
  contactResponders Sample.env Sample.ctxShort
    (mkConfig Sample.leafNoResponder Sample.caCert) World0
  = ((None, None), World0)
  /\ contactResponders Sample.env Sample.ctxShort
       (mkConfig Sample.leafUnencodable Sample.caCert) World0
     = ((None, None), mkWorld 0 [call_CreateRequest]).
Proof.
  split.
  - apply (contactResponders_nothing_to_query Sample.env Sample.ctxShort
             (mkConfig Sample.leafNoResponder Sample.caCert) World0).
    reflexivity.
  - destruct (proj2 (contactResponders_nothing_to_query Sample.env Sample.ctxShort
                       (mkConfig Sample.leafUnencodable Sample.caCert) World0)
                    (errors_New "ocsp: cannot encode request") eq_refl)
      as (Hres & _ & Hafter).
    unfold result in Hres. unfold after in Hafter.
    rewrite (surjective_pairing (contactResponders _ _ _ _)), Hres, Hafter;
      [reflexivity | discriminate].
Defined.

(** ** [Verify] *)

(** C1.  Once the chain checks have passed and [newConfig] has succeeded:
    if [parseStaple] returns neither a response nor an error, and
    [contactResponders], run next, returns neither a response nor an error,
    then [Verify] returns nil. *)
Theorem Verify_fails_open
  (E : Env) (ctx : Context) (connState : ConnectionState)
  (certChain : list Certificate) (rest : list (list Certificate))
  (cfg : config) (w : World) :
  VerifiedChains connState = certChain :: rest ->
  certChain <> [] ->
  newConfig E certChain = inl cfg ->
  result (parseStaple E cfg (OCSPResponse connState))
         (after (do_newConfig E certChain) w) = (None, None) ->
  result (contactResponders E ctx cfg)
         (after (parseStaple E cfg (OCSPResponse connState))
                (after (do_newConfig E certChain) w)) = (None, None) ->
  result (Verify E ctx connState) w = None.
Proof.
  intros Hc Hne Hcfg Hst Hq.
  destruct (parseStaple_nothing _ _ _ _ Hst) as [Hempty Hms].
  unfold result.
  rewrite (Verify_without_staple E ctx connState certChain rest cfg w
             Hc Hne Hcfg Hempty Hms).
  revert Hq. unfold result, after.
  rewrite do_newConfig_run, parseStaple_run, Hempty, Hms. cbn [snd].
  intros Hq. rewrite bind_run, Hq. reflexivity.
Qed.

(** No staple, and nobody answers on the network. *)
Lemma Verify_fails_open_witness :
  result (Verify Sample.envDown Sample.ctxShort
            (Sample.conn [Sample.leaf; Sample.caCert] [])) World0 = None.
Proof.
  apply (Verify_fails_open Sample.envDown Sample.ctxShort
           (Sample.conn [Sample.leaf; Sample.caCert] [])
           [Sample.leaf; Sample.caCert] [] Sample.cfg World0);
    [reflexivity | discriminate | reflexivity | reflexivity | reflexivity].
Defined.

(** C9.  When [parseStaple] returns a decoded response, [Verify] calls
    [newConfig], the codec on the staple and the clock, and nothing else: no
    request payload is built and no request is handed to the HTTP client.
    If the decoded response is Good, its [thisUpdate] is not after the
    current time and its [nextUpdate] is zero or not before it, [Verify]
    returns nil. *)
Theorem Verify_usable_staple_skips_query
  (E : Env) (ctx : Context) (connState : ConnectionState)
  (certChain : list Certificate) (rest : list (list Certificate))
  (cfg : config) (res : Response) (w : World) :
  VerifiedChains connState = certChain :: rest ->
  certChain <> [] ->
  newConfig E certChain = inl cfg ->
  result (parseStaple E cfg (OCSPResponse connState))
         (after (do_newConfig E certChain) w) = (Some res, None) ->
  trace (after (Verify E ctx connState) w)
  = trace w ++ [call_newConfig certChain;
                call_ParseResponseForCert (OCSPResponse connState);
                call_time_Now]
  /\ http_calls (trace (after (Verify E ctx connState) w)) = http_calls (trace w)
  /\ (Status res = ocsp_Good ->
      After (ThisUpdate res) (UTC (time_Now_at E (ticks w))) = false ->
      IsZero (NextUpdate res) = true \/
      Before (NextUpdate res) (UTC (time_Now_at E (ticks w))) = false ->
      result (Verify E ctx connState) w = None).
Proof.
  intros Hc Hne Hcfg Hst.
  destruct (parseStaple_usable _ _ _ _ _ Hst) as [Hnonempty Hdec].
  unfold result, after.
  rewrite (Verify_with_staple E ctx connState certChain rest cfg res w
             Hc Hne Hcfg Hnonempty Hdec).
  rewrite conclude_run. cbn [fst snd trace ticks].
  assert (Htrace :
    (trace w ++ [call_newConfig certChain;
                 call_ParseResponseForCert (OCSPResponse connState)])
      ++ [call_time_Now]
    = trace w ++ [call_newConfig certChain;
                  call_ParseResponseForCert (OCSPResponse connState);
                  call_time_Now]).
  { rewrite <- app_assoc. reflexivity. }
  rewrite Htrace.
  split; [reflexivity|]. split.
  - rewrite http_calls_app. cbn. apply app_nil_r.
  - intros Hgood Ht Hn.
    unfold result. rewrite verifyResponse_run. cbn [fst ticks].
    rewrite Ht, (stale_check_passes _ _ Hn), Hgood. reflexivity.
Qed.

(** A Good staple inside its validity window, on a leaf that lists
    responders. *)
Lemma Verify_usable_staple_skips_query_witness :
  http_calls (trace (after (Verify Sample.env Sample.ctxShort
                              (Sample.conn [Sample.leaf; Sample.caCert] [Byte.x00]))
                           World0)) = []
  /\ result (Verify Sample.env Sample.ctxShort
               (Sample.conn [Sample.leaf; Sample.caCert] [Byte.x00])) World0 = None.
Proof.
  split.
  - apply (Verify_usable_staple_skips_query Sample.env Sample.ctxShort
             (Sample.conn [Sample.leaf; Sample.caCert] [Byte.x00])
             [Sample.leaf; Sample.caCert] [] Sample.cfg Sample.goodResponse World0);
      [reflexivity | discriminate | reflexivity | reflexivity].
  - apply (Verify_usable_staple_skips_query Sample.env Sample.ctxShort
             (Sample.conn [Sample.leaf; Sample.caCert] [Byte.x00])
             [Sample.leaf; Sample.caCert] [] Sample.cfg Sample.goodResponse World0);
      [reflexivity | discriminate | reflexivity | reflexivity
      | reflexivity | reflexivity | right; reflexivity].
Defined.

(* ================================================================== *)
(** * Further properties of the package *)
(* ================================================================== *)

(** ** The text of an error *)

Lemma prefix_append (p s : string) : String.prefix p (p ++ s) = true.
Proof.
  induction p as [|a p IH]; cbn.
  - destruct s; reflexivity.
  - destruct (Ascii.ascii_dec a a) as [_|Hn]; [exact IH | contradiction].
Qed.

Lemma wrapped_text (P : Printer) (wrapped : error) :
  String.prefix "OCSP verification failed: "
                (error_Error P (newOCSPError wrapped)) = true.
Proof. apply (prefix_append "OCSP verification failed: "). Qed.

(** ** The verdict of [verifyResponse] *)

Lemma verifyResponse_accepts_iff (E : Env) (cfg : config) (res : Response)
  (w : World) :
  result (verifyResponse E cfg res) w = None <->
  in_window res (UTC (time_Now_at E (ticks w))) /\ Status res <> ocsp_Revoked.
Proof.
  unfold result, in_window. rewrite verifyResponse_run. cbn [fst].
  destruct (After _ _).
  { split; [discriminate | intros [[H _] _]; discriminate]. }
  destruct (negb _ && _) eqn:Hs.
  { split; [discriminate|]. intros [[_ H] _].
    rewrite (stale_check_passes _ _ H) in Hs. discriminate. }
  destruct (Status res =? ocsp_Revoked) eqn:Hr.
  { split; [discriminate|]. intros [_ H]. apply Z.eqb_eq in Hr. contradiction. }
  split; [|reflexivity]. intros _.
  split; [split; [reflexivity | now apply stale_check_passes_inv]
         | now apply Z.eqb_neq].
Qed.

Lemma verifyResponse_rejects (E : Env) (cfg : config) (res : Response)
  (w : World) (e : error) :
  result (verifyResponse E cfg res) w = Some e -> ResponseInvalidError e.
Proof.
  unfold result. rewrite verifyResponse_run. cbn [fst].
  destruct (After _ _); [intros [= <-]; exact I|].
  destruct (negb _ && _); [intros [= <-]; exact I|].
  destruct (_ =? _); [intros [= <-]; reflexivity | discriminate].
Qed.

Lemma conclude_result (E : Env) (cfg : config) (res : Response) (w : World) :
  result (conclude E cfg (Some res)) w
  = option_map newOCSPError (result (verifyResponse E cfg res) w).
Proof. unfold result at 1. rewrite conclude_run. reflexivity. Qed.

(** ** [Verify]: errors *)

(** [Verify] when [newConfig] fails. *)
Lemma Verify_config_failure (E : Env) (ctx : Context) (connState : ConnectionState)
  (certChain : list Certificate) (rest : list (list Certificate))
  (err : error) (w : World) :
  VerifiedChains connState = certChain :: rest ->
  certChain <> [] ->
  newConfig E certChain = inr err ->
  Verify E ctx connState w =
  (Some (newOCSPError err),
   mkWorld (ticks w) (trace w ++ [call_newConfig certChain])).
Proof.
  intros Hc Hne Hcfg. unfold Verify. rewrite Hc, (length_nonzero _ Hne).
  rewrite bind_run, do_newConfig_run. cbn [fst snd]. rewrite Hcfg. reflexivity.
Qed.

(** [Verify] when [parseStaple] returns an error. *)
Lemma Verify_staple_failure (E : Env) (ctx : Context) (connState : ConnectionState)
  (certChain : list Certificate) (rest : list (list Certificate))
  (cfg : config) (res : option Response) (err : error) (w : World) :
  VerifiedChains connState = certChain :: rest ->
  certChain <> [] ->
  newConfig E certChain = inl cfg ->
  result (parseStaple E cfg (OCSPResponse connState))
         (mkWorld (ticks w) (trace w ++ [call_newConfig certChain]))
  = (res, Some err) ->
  Verify E ctx connState w =
  (Some (newOCSPError err),
   after (parseStaple E cfg (OCSPResponse connState))
         (mkWorld (ticks w) (trace w ++ [call_newConfig certChain]))).
Proof.
  intros Hc Hne Hcfg Hst.
  rewrite (Verify_to_staple E ctx connState certChain rest cfg w Hc Hne Hcfg).
  rewrite bind_run. unfold result in Hst. rewrite Hst.
  destruct res; reflexivity.
Qed.

(** X1.  Every error [Verify] returns is the package's own error type
    around a cause, and its text starts with "OCSP verification failed: ". *)
Theorem Verify_error_is_wrapped
  (E : Env) (P : Printer) (ctx : Context) (connState : ConnectionState)
  (w : World) (e : error) :
  result (Verify E ctx connState) w = Some e ->
  (exists wrapped, e = newOCSPError wrapped) /\
  String.prefix "OCSP verification failed: " (error_Error P e) = true.
Proof.
  intros H.
  assert (Hw : exists wrapped, e = newOCSPError wrapped).
  { revert H. unfold result.
    destruct (VerifiedChains connState) as [|certChain rest] eqn:Hc.
    { unfold Verify. rewrite Hc. intros [= <-]. now eexists. }
    destruct certChain as [|leaf chain'] eqn:Hch.
    { unfold Verify. rewrite Hc. intros [= <-]. now eexists. }
    rewrite <- Hch in *.
    assert (Hne : certChain <> []) by (rewrite Hch; discriminate).
    destruct (newConfig E certChain) as [cfg|err] eqn:Hcfg.
    2:{ rewrite (Verify_config_failure E ctx connState certChain rest err w
                   Hc Hne Hcfg).
        intros [= <-]. now eexists. }
    rewrite (Verify_to_staple E ctx connState certChain rest cfg w Hc Hne Hcfg).
    rewrite bind_run.
    destruct (fst (parseStaple E cfg (OCSPResponse connState) _))
      as [[res|] [err|]].
    - intros [= <-]. now eexists.
    - rewrite conclude_run. cbn [fst].
      destruct (result (verifyResponse E cfg res) _); [|discriminate].
      intros [= <-]. now eexists.
    - intros [= <-]. now eexists.
    - rewrite bind_run.
      destruct (fst (contactResponders E ctx cfg _)) as [[res|] [err|]].
      + intros [= <-]. now eexists.
      + rewrite conclude_run. cbn [fst].
        destruct (result (verifyResponse E cfg res) _); [|discriminate].
        intros [= <-]. now eexists.
      + intros [= <-]. now eexists.
      + discriminate. }
  split; [exact Hw|].
  destruct Hw as [wrapped ->]. apply wrapped_text.
Qed.

(** A Must-Staple leaf that comes without a staple. *)
Lemma Verify_error_is_wrapped_witness :
  result (Verify Sample.env Sample.ctxShort
            (Sample.conn Cases.chainMustStaple [])) World0
  = Some (newOCSPError errMustStaple)
  /\ String.prefix "OCSP verification failed: "
       (error_Error Cases.printer (newOCSPError errMustStaple)) = true.
Proof.
  split; [reflexivity|].
  apply (Verify_error_is_wrapped Sample.env Cases.printer Sample.ctxShort
           (Sample.conn Cases.chainMustStaple []) World0
           (newOCSPError errMustStaple)).
  reflexivity.
Defined.

(** X2.  When the first chain has a certificate and [newConfig] fails on
    it, [Verify] returns that failure wrapped, and [newConfig] is the only
    collaborator it has called: the staple is not decoded, however it looks,
    and no responder is asked. *)
Theorem Verify_newConfig_error
  (E : Env) (ctx : Context) (connState : ConnectionState)
  (certChain : list Certificate) (rest : list (list Certificate))
  (err : error) (w : World) :
  VerifiedChains connState = certChain :: rest ->
  certChain <> [] ->
  newConfig E certChain = inr err ->
  result (Verify E ctx connState) w = Some (newOCSPError err) /\
  after (Verify E ctx connState) w
  = mkWorld (ticks w) (trace w ++ [call_newConfig certChain]).
Proof.
  intros Hc Hne Hcfg. unfold result, after.
  rewrite (Verify_config_failure E ctx connState certChain rest err w Hc Hne Hcfg).
  split; reflexivity.
Qed.

Lemma Verify_newConfig_error_witness :
  result (Verify Cases.envNoConfig Sample.ctxShort
            (Sample.conn Cases.chain [Byte.x00])) World0
  = Some (newOCSPError (errors_New "no issuer"))
  /\ after (Verify Cases.envNoConfig Sample.ctxShort
              (Sample.conn Cases.chain [Byte.x00])) World0
     = mkWorld 0 [call_newConfig Cases.chain].
Proof.
  apply (Verify_newConfig_error Cases.envNoConfig Sample.ctxShort
           (Sample.conn Cases.chain [Byte.x00]) Cases.chain [] 
           (errors_New "no issuer") World0);
    [reflexivity | discriminate | reflexivity].
Defined.

(** X3.  When the connection carries a staple, whatever becomes of it,
    [Verify] builds no OCSP request and hands nothing to the HTTP client:
    a staple that fails to decode, or decodes to a stale or revoked
    response, is never made up for by asking a responder. *)
Theorem Verify_no_query_with_staple
  (E : Env) (ctx : Context) (connState : ConnectionState) (w : World) :
  OCSPResponse connState <> [] ->
  exists events,
    trace (after (Verify E ctx connState) w) = trace w ++ events /\
    forallb (fun e => negb (query_event e)) events = true /\
    http_calls (trace (after (Verify E ctx connState) w)) = http_calls (trace w).
Proof.
  intros Hst. unfold after.
  assert (Hdone : forall events,
            forallb (fun e => negb (query_event e)) events = true ->
            http_calls events = [] ->
            trace (snd (Verify E ctx connState w)) = trace w ++ events ->
            exists events0,
              trace (snd (Verify E ctx connState w)) = trace w ++ events0 /\
              forallb (fun e => negb (query_event e)) events0 = true /\
              http_calls (trace (snd (Verify E ctx connState w)))
              = http_calls (trace w)).
  { intros events Hq Hh Ht. exists events. split; [exact Ht|].
    split; [exact Hq|]. rewrite Ht, http_calls_app, Hh. apply app_nil_r. }
  destruct (VerifiedChains connState) as [|certChain rest] eqn:Hc.
  { apply (Hdone []); [reflexivity | reflexivity |].
    unfold Verify. rewrite Hc. cbn. now rewrite app_nil_r. }
  destruct certChain as [|leaf chain'] eqn:Hch.
  { apply (Hdone []); [reflexivity | reflexivity |].
    unfold Verify. rewrite Hc. cbn. now rewrite app_nil_r. }
  rewrite <- Hch in *.
  assert (Hne : certChain <> []) by (rewrite Hch; discriminate).
  destruct (newConfig E certChain) as [cfg|err] eqn:Hcfg.
  2:{ apply (Hdone [call_newConfig certChain]); [reflexivity | reflexivity |].
      rewrite (Verify_config_failure E ctx connState certChain rest err w
                 Hc Hne Hcfg). reflexivity. }
  destruct (ocsp_ParseResponseForCert E (OCSPResponse connState)
              (serverCert cfg) (issuer cfg)) as [res|cause] eqn:Hdec.
  - apply (Hdone [call_newConfig certChain;
                  call_ParseResponseForCert (OCSPResponse connState);
                  call_time_Now]); [reflexivity | reflexivity |].
    rewrite (Verify_with_staple E ctx connState certChain rest cfg res w
               Hc Hne Hcfg Hst Hdec).
    rewrite conclude_run. cbn [snd trace]. rewrite <- app_assoc. reflexivity.
  - apply (Hdone [call_newConfig certChain;
                  call_ParseResponseForCert (OCSPResponse connState)]);
      [reflexivity | reflexivity |].
    rewrite (Verify_staple_failure E ctx connState certChain rest cfg None
               (fmt_Errorf_staple cause) w Hc Hne Hcfg).
    + unfold after. rewrite parseStaple_run.
      destruct (OCSPResponse connState); [congruence|].
      cbn [snd trace]. rewrite <- app_assoc. reflexivity.
    + unfold result. rewrite parseStaple_run.
      destruct (OCSPResponse connState); [congruence|].
      rewrite Hdec. reflexivity.
Qed.

(** A malformed staple on a leaf that lists two responders. *)
Lemma Verify_no_query_with_staple_witness :
  exists events,
    trace (after (Verify Sample.env Sample.ctxShort
                    (Sample.conn Cases.chain [Byte.xff])) World0)
    = trace World0 ++ events /\
    forallb (fun e => negb (query_event e)) events = true /\
    http_calls (trace (after (Verify Sample.env Sample.ctxShort
                                (Sample.conn Cases.chain [Byte.xff])) World0))
    = http_calls (trace World0).
Proof.
  apply (Verify_no_query_with_staple Sample.env Sample.ctxShort
           (Sample.conn Cases.chain [Byte.xff]) World0).
  discriminate.
Defined.

(** X4.  The two staple errors end [Verify]: a Must-Staple leaf with an
    empty staple gives the Must-Staple error wrapped, with [newConfig] as the
    only call; a staple the codec rejects gives the codec's error, inside
    the staple error, wrapped, with the decoding as the last call.  Neither
    reads the clock. *)
Theorem Verify_staple_error
  (E : Env) (ctx : Context) (connState : ConnectionState)
  (certChain : list Certificate) (rest : list (list Certificate))
  (cfg : config) (w : World) :
  VerifiedChains connState = certChain :: rest ->
  certChain <> [] ->
  newConfig E certChain = inl cfg ->
  (mustStaple cfg = true ->
   OCSPResponse connState = [] ->
   Verify E ctx connState w =
   (Some (newOCSPError errMustStaple),
    mkWorld (ticks w) (trace w ++ [call_newConfig certChain])))
  /\
  (forall cause,
     OCSPResponse connState <> [] ->
     ocsp_ParseResponseForCert E (OCSPResponse connState)
       (serverCert cfg) (issuer cfg) = inr cause ->
     Verify E ctx connState w =
     (Some (newOCSPError (fmt_Errorf_staple cause)),
      mkWorld (ticks w)
        (trace w ++ [call_newConfig certChain;
                     call_ParseResponseForCert (OCSPResponse connState)]))).
Proof.
  intros Hc Hne Hcfg. split.
  - intros Hms Hst.
    rewrite (Verify_staple_failure E ctx connState certChain rest cfg None
               errMustStaple w Hc Hne Hcfg).
    + unfold after. rewrite parseStaple_run, Hst. reflexivity.
    + unfold result. rewrite parseStaple_run, Hst, Hms. reflexivity.
  - intros cause Hst Hdec.
    rewrite (Verify_staple_failure E ctx connState certChain rest cfg None
               (fmt_Errorf_staple cause) w Hc Hne Hcfg).
    + unfold after. rewrite parseStaple_run.
      destruct (OCSPResponse connState); [congruence|].
      cbn [snd trace ticks]. rewrite <- app_assoc. reflexivity.
    + unfold result. rewrite parseStaple_run.
      destruct (OCSPResponse connState); [congruence|].
      rewrite Hdec. reflexivity.
Qed.

Lemma Verify_staple_error_witness :
  Verify Sample.env Sample.ctxShort (Sample.conn Cases.chainMustStaple []) World0
  = (Some (newOCSPError errMustStaple),
     mkWorld 0 [call_newConfig Cases.chainMustStaple])
  /\ Verify Sample.env Sample.ctxShort (Sample.conn Cases.chain [Byte.xff]) World0
  = (Some (newOCSPError
             (fmt_Errorf_staple (errors_New "ocsp: malformed response"))),
     mkWorld 0 [call_newConfig Cases.chain;
                call_ParseResponseForCert [Byte.xff]]).
Proof.
  split.
  - apply (Verify_staple_error Sample.env Sample.ctxShort
             (Sample.conn Cases.chainMustStaple []) Cases.chainMustStaple []
             Sample.cfgMustStaple World0);
      [reflexivity | discriminate | reflexivity | reflexivity | reflexivity].
  - apply (Verify_staple_error Sample.env Sample.ctxShort
             (Sample.conn Cases.chain [Byte.xff]) Cases.chain []
             Sample.cfg World0);
      [reflexivity | discriminate | reflexivity | discriminate | reflexivity].
Defined.

(** X5.  When the staple decodes, the decoded response alone decides:
    [Verify] returns nil exactly when the response passes the two time
    checks at the first reading of the clock and its status is not Revoked
    (so a stapled response with status Unknown is accepted), and otherwise
    it returns one of the three errors of [verifyResponse], wrapped. *)
Theorem Verify_usable_staple_verdict
  (E : Env) (ctx : Context) (connState : ConnectionState)
  (certChain : list Certificate) (rest : list (list Certificate))
  (cfg : config) (res : Response) (w : World) :
  VerifiedChains connState = certChain :: rest ->
  certChain <> [] ->
  newConfig E certChain = inl cfg ->
  OCSPResponse connState <> [] ->
  ocsp_ParseResponseForCert E (OCSPResponse connState) (serverCert cfg) (issuer cfg)
  = inl res ->
  (result (Verify E ctx connState) w = None <->
   in_window res (UTC (time_Now_at E (ticks w))) /\ Status res <> ocsp_Revoked)
  /\
  (Status res = ocsp_Unknown ->
   in_window res (UTC (time_Now_at E (ticks w))) ->
   result (Verify E ctx connState) w = None)
  /\
  (forall e,
     result (Verify E ctx connState) w = Some e ->
     exists cause, e = newOCSPError cause /\ ResponseInvalidError cause).
Proof.
  intros Hc Hne Hcfg Hst Hdec.
  assert (Hv : result (Verify E ctx connState) w
               = option_map newOCSPError
                   (result (verifyResponse E cfg res)
                      (mkWorld (ticks w)
                         (trace w ++
                          [call_newConfig certChain;
                           call_ParseResponseForCert (OCSPResponse connState)])))).
  { unfold result at 1.
    rewrite (Verify_with_staple E ctx connState certChain rest cfg res w
               Hc Hne Hcfg Hst Hdec).
    apply conclude_result. }
  assert (Hiff : result (Verify E ctx connState) w = None <->
                 in_window res (UTC (time_Now_at E (ticks w))) /\
                 Status res <> ocsp_Revoked).
  { rewrite Hv.
    rewrite <- (verifyResponse_accepts_iff E cfg res
                  (mkWorld (ticks w)
                     (trace w ++
                      [call_newConfig certChain;
                       call_ParseResponseForCert (OCSPResponse connState)]))).
    destruct (result (verifyResponse E cfg res) _); cbn;
      split; (discriminate || reflexivity). }
  split; [exact Hiff | split].
  - intros Hu Hw. apply Hiff. split; [exact Hw|]. rewrite Hu. discriminate.
  - intros e. rewrite Hv.
    destruct (result (verifyResponse E cfg res) _) as [cause|] eqn:Hr;
      [|discriminate].
    intros [= <-]. exists cause. split; [reflexivity|].
    exact (verifyResponse_rejects E cfg res _ cause Hr).
Qed.

(** Two staples on a leaf that lists responders: Unknown inside its
    window, and Revoked. *)
Lemma Verify_usable_staple_verdict_witness :
  result (Verify Sample.env Sample.ctxShort (Sample.conn Cases.chain [Byte.x02]))
         World0 = None
  /\ (exists cause,
        result (Verify Sample.env Sample.ctxShort
                  (Sample.conn Cases.chain [Byte.x01])) World0
        = Some (newOCSPError cause) /\ ResponseInvalidError cause).
Proof.
  split.
  - apply (Verify_usable_staple_verdict Sample.env Sample.ctxShort
             (Sample.conn Cases.chain [Byte.x02]) Cases.chain []
             Sample.cfg Sample.unknownResponse World0);
      [reflexivity | discriminate | reflexivity | discriminate | reflexivity
      | reflexivity | split; [reflexivity | right; reflexivity]].
  - destruct (proj2 (proj2 (Verify_usable_staple_verdict Sample.env Sample.ctxShort
                (Sample.conn Cases.chain [Byte.x01]) Cases.chain []
                Sample.cfg Sample.revokedResponse World0
                eq_refl ltac:(discriminate) eq_refl ltac:(discriminate) eq_refl))
              (newOCSPError (errors_New "certificate is revoked")) eq_refl)
      as (cause & Hc & Hr).
    exists cause. split; [|exact Hr]. rewrite <- Hc. reflexivity.
Defined.

(** X6.  A leaf with nothing to check against is accepted in silence:
    with no staple, no Must-Staple extension, and either no responder listed
    or a request payload the codec cannot build, [Verify] returns nil
    without reading the clock and without handing anything to the HTTP
    client. *)
Theorem Verify_nothing_to_check
  (E : Env) (ctx : Context) (connState : ConnectionState)
  (certChain : list Certificate) (rest : list (list Certificate))
  (cfg : config) (w : World) :
  VerifiedChains connState = certChain :: rest ->
  certChain <> [] ->
  newConfig E certChain = inl cfg ->
  OCSPResponse connState = [] ->
  mustStaple cfg = false ->
  OCSPServer (serverCert cfg) = [] \/
  (exists err, ocsp_CreateRequest E (serverCert cfg) (issuer cfg) = inr err) ->
  result (Verify E ctx connState) w = None /\
  ticks (after (Verify E ctx connState) w) = ticks w /\
  http_calls (trace (after (Verify E ctx connState) w)) = http_calls (trace w).
Proof.
  intros Hc Hne Hcfg Hst Hms Hnone. unfold result, after.
  rewrite (Verify_without_staple E ctx connState certChain rest cfg w
             Hc Hne Hcfg Hst Hms).
  rewrite bind_run.
  destruct (OCSPServer (serverCert cfg)) as [|ep eps] eqn:Hs.
  - unfold contactResponders. rewrite Hs. cbn.
    split; [reflexivity | split; [reflexivity|]].
    rewrite http_calls_app. cbn. apply app_nil_r.
  - destruct Hnone as [Habs | [err Herr]]; [discriminate|].
    unfold contactResponders. rewrite Hs. cbn [List.length Nat.eqb].
    rewrite bind_run, do_CreateRequest_run. cbn [fst snd]. rewrite Herr. cbn.
    split; [reflexivity | split; [reflexivity|]].
    rewrite !http_calls_app. cbn. rewrite !app_nil_r. reflexivity.
Qed.

Lemma Verify_nothing_to_check_witness :
  result (Verify Sample.env Sample.ctxShort (Sample.conn Cases.chainNoResponder []))
         World0 = None
  /\ ticks (after (Verify Sample.env Sample.ctxShort
                     (Sample.conn Cases.chainNoResponder [])) World0)
     = ticks World0
  /\ http_calls (trace (after (Verify Sample.env Sample.ctxShort
                                 (Sample.conn Cases.chainNoResponder [])) World0))
     = http_calls (trace World0).
Proof.
  apply (Verify_nothing_to_check Sample.env Sample.ctxShort
           (Sample.conn Cases.chainNoResponder []) Cases.chainNoResponder []
           (mkConfig Sample.leafNoResponder Sample.caCert) World0);
    [reflexivity | discriminate | reflexivity | reflexivity | reflexivity
    | left; reflexivity].
Defined.

(** ** A task whose request was answered *)

(** The run of a task once the HTTP client has returned a response. *)
Lemma task_answered_run (E : Env) (userContextUsed : bool) (groupCtx : Context)
  (cfg : config) (requestBytes : bytes) (endpoint : string)
  (request : Request) (resp : HTTPResponse) (w : World) :
  http_NewRequest E "POST" endpoint requestBytes = inl request ->
  http_Do E (WithContext request groupCtx) = inl resp ->
  task E userContextUsed groupCtx cfg requestBytes endpoint w =
  if negb (StatusCode resp =? 200) then
    ((None, None),
     mkWorld (ticks w) (trace w ++ [call_http_Do (WithContext request groupCtx)]))
  else
    match ReadAll resp with
    | inr _ =>
      ((None, None),
       mkWorld (ticks w) (trace w ++ [call_http_Do (WithContext request groupCtx)]))
    | inl httpBytes =>
      (match ocsp_ParseResponseForCert E httpBytes (serverCert cfg) (issuer cfg) with
       | inr _ => (None, None)
       | inl ocspResponse =>
         if Status ocspResponse =? ocsp_Unknown then (None, None)
         else (Some ocspResponse, Some errGotOCSPResponse)
       end,
       mkWorld (ticks w)
         (trace w ++ [call_http_Do (WithContext request groupCtx);
                      call_ParseResponseForCert httpBytes]))
    end.
Proof.
  intros Hrq Hdo. unfold task. rewrite Hrq. cbv zeta.
  rewrite bind_run, do_http_run. cbn [fst snd]. rewrite Hdo.
  destruct (negb (StatusCode resp =? 200)); [reflexivity|].
  destruct (ReadAll resp) as [httpBytes|e]; [|reflexivity].
  rewrite bind_run, do_ParseResponseForCert_run. cbn [fst snd ticks trace].
  rewrite <- app_assoc. cbn [app].
  destruct (ocsp_ParseResponseForCert E _ _ _) as [r|e]; [|reflexivity].
  destruct (Status r =? ocsp_Unknown); reflexivity.
Qed.

(** X7.  When the HTTP client returns a response, the task sends an OCSP
    response on the channel exactly when the status code is 200, the body
    can be read, the codec decodes it, and the decoded status is not
    Unknown; it then returns the sentinel error, and in every other case it
    returns nothing, never an error of its own.  The codec is not called for
    a response whose status code is not 200 or whose body cannot be read.
    The flag [userContextUsed] plays no part. *)
Theorem task_answered
  (E : Env) (userContextUsed : bool) (groupCtx : Context) (cfg : config)
  (requestBytes : bytes) (endpoint : string) (request : Request)
  (resp : HTTPResponse) (w : World) :
  http_NewRequest E "POST" endpoint requestBytes = inl request ->
  http_Do E (WithContext request groupCtx) = inl resp ->
  (forall r,
     result (task E userContextUsed groupCtx cfg requestBytes endpoint) w
     = (Some r, Some errGotOCSPResponse)
     <->
     StatusCode resp = 200 /\
     exists httpBytes,
       ReadAll resp = inl httpBytes /\
       ocsp_ParseResponseForCert E httpBytes (serverCert cfg) (issuer cfg) = inl r /\
       Status r <> ocsp_Unknown)
  /\
  (result (task E userContextUsed groupCtx cfg requestBytes endpoint) w = (None, None)
   \/ exists r,
        result (task E userContextUsed groupCtx cfg requestBytes endpoint) w
        = (Some r, Some errGotOCSPResponse))
  /\
  (StatusCode resp <> 200 \/ (exists e, ReadAll resp = inr e) ->
   after (task E userContextUsed groupCtx cfg requestBytes endpoint) w
   = mkWorld (ticks w)
       (trace w ++ [call_http_Do (WithContext request groupCtx)])).
Proof.
  intros Hrq Hdo. unfold result, after.
  rewrite (task_answered_run E userContextUsed groupCtx cfg requestBytes endpoint
             request resp w Hrq Hdo).
  destruct (StatusCode resp =? 200) eqn:Hs; cbn [negb].
  2:{ apply Z.eqb_neq in Hs. split; [| split].
      - intros r. split; [discriminate | intros [H _]; contradiction].
      - now left.
      - reflexivity. }
  apply Z.eqb_eq in Hs.
  destruct (ReadAll resp) as [httpBytes|e] eqn:Hread.
  2:{ split; [| split].
      - intros r. split; [discriminate|].
        intros (_ & b & Hb & _). discriminate.
      - now left.
      - reflexivity. }
  cbn [fst snd].
  destruct (ocsp_ParseResponseForCert E httpBytes (serverCert cfg) (issuer cfg))
    as [r0|e] eqn:Hdec.
  2:{ split; [| split].
      - intros r. split; [discriminate|].
        intros (_ & b & [= <-] & Hb & _). congruence.
      - now left.
      - intros [H | [e' H]]; [contradiction | discriminate]. }
  destruct (Status r0 =? ocsp_Unknown) eqn:Hu.
  - apply Z.eqb_eq in Hu. split; [| split].
    + intros r. split; [discriminate|].
      intros (_ & b & [= <-] & Hb & Hn).
      rewrite Hdec in Hb. injection Hb as <-. contradiction.
    + now left.
    + intros [H | [e' H]]; [contradiction | discriminate].
  - apply Z.eqb_neq in Hu. split; [| split].
    + intros r. split.
      * intros [= <-]. split; [exact Hs|]. exists httpBytes. now repeat split.
      * intros (_ & b & [= <-] & Hb & _).
        rewrite Hdec in Hb. injection Hb as <-. reflexivity.
    + right. now exists r0.
    + intros [H | [e' H]]; [contradiction | discriminate].
Qed.

(** A responder that answers 200 with a Good response, one that answers
    500 with the same body, and one that answers 200 with an Unknown
    response. *)
Lemma task_answered_witness :
  result (task (Cases.envAnswering 200 (inl [Byte.x00])) true
               (cancelCtx Sample.ctxShort) Sample.cfg [Byte.x30]
               "http://ocsp.example") World0
  = (Some Sample.goodResponse, Some errGotOCSPResponse)
  /\ task (Cases.envAnswering 500 (inl [Byte.x00])) true
          (cancelCtx Sample.ctxShort) Sample.cfg [Byte.x30]
          "http://ocsp.example" World0
     = ((None, None),
        mkWorld 0 [call_http_Do
                     (mkRequest "POST" "http://ocsp.example" [Byte.x30]
                                (cancelCtx Sample.ctxShort))]).
Proof.
  split.
  - apply (task_answered (Cases.envAnswering 200 (inl [Byte.x00])) true
             (cancelCtx Sample.ctxShort) Sample.cfg [Byte.x30]
             "http://ocsp.example"
             (mkRequest "POST" "http://ocsp.example" [Byte.x30] backgroundCtx)
             (mkHTTPResponse 200 (inl [Byte.x00])) World0 eq_refl eq_refl).
    split; [reflexivity|]. exists [Byte.x00].
    split; [reflexivity | split; [reflexivity | discriminate]].
  - destruct (task_answered (Cases.envAnswering 500 (inl [Byte.x00])) true
                (cancelCtx Sample.ctxShort) Sample.cfg [Byte.x30]
                "http://ocsp.example"
                (mkRequest "POST" "http://ocsp.example" [Byte.x30] backgroundCtx)
                (mkHTTPResponse 500 (inl [Byte.x00])) World0 eq_refl eq_refl)
      as (_ & _ & Hafter).
    rewrite (surjective_pairing (task _ _ _ _ _ _ _)).
    unfold after in Hafter. rewrite Hafter; [reflexivity | left; discriminate].
Defined.

(** ** What the query can return *)

Lemma group_Wait_In (returned : list (option error)) (err : error) :
  group_Wait returned = Some err -> In (Some err) returned.
Proof.
  induction returned as [|[e|] returned IH]; cbn; [discriminate | |].
  - intros [= ->]. now left.
  - intros H. right. now apply IH.
Qed.

Lemma channel_head_In (finished : list TaskResult) (r : Response)
  (others : list Response) :
  channel finished = r :: others ->
  exists returned, In (Some r, returned) finished.
Proof.
  induction finished as [|[[r0|] returned] finished IH]; cbn; [discriminate | |].
  - intros [= -> _]. exists returned. now left.
  - intros H. destruct (IH H) as [ret Hin]. exists ret. now right.
Qed.

(** The result of the reduction is that of one of the tasks: nothing, the
    response one task sent, or the error one task returned that is not the
    sentinel. *)
Lemma reduce_cases (finished : list TaskResult) :
  reduce finished = (None, None)
  \/ (exists r returned,
        In (Some r, returned) finished /\ reduce finished = (Some r, None))
  \/ (exists published err,
        In (published, Some err) finished /\
        is_errGotOCSPResponse err = false /\
        reduce finished = (None, Some err)).
Proof.
  assert (Hthird : forall err,
            group_Wait (map snd finished) = Some err ->
            exists published, In (published, Some err) finished).
  { intros err Hw. apply group_Wait_In in Hw. apply in_map_iff in Hw.
    destruct Hw as ([published returned] & Hsnd & Hin).
    cbn in Hsnd. subst returned. now exists published. }
  unfold reduce.
  destruct (channel finished) as [|r others] eqn:Hch;
    destruct (group_Wait (map snd finished)) as [err|] eqn:Hw;
    try destruct (is_errGotOCSPResponse err) eqn:Hs; cbn [negb];
    try (left; reflexivity);
    try (right; right; destruct (Hthird err eq_refl) as [published Hin];
         now exists published, err);
    right; left; destruct (channel_head_In _ _ _ Hch) as [returned Hin];
    now exists r, returned.
Qed.

(** A task sends only what the codec decoded for the certificate of the
    query. *)
Lemma task_sends_decoded (E : Env) (userContextUsed : bool) (groupCtx : Context)
  (cfg : config) (requestBytes : bytes) (endpoint : string) (w : World)
  (r : Response) :
  fst (result (task E userContextUsed groupCtx cfg requestBytes endpoint) w) = Some r ->
  exists httpBytes,
    ocsp_ParseResponseForCert E httpBytes (serverCert cfg) (issuer cfg) = inl r.
Proof.
  unfold result, task.
  destruct (http_NewRequest E "POST" endpoint requestBytes) as [request|e];
    [|discriminate].
  cbv zeta. rewrite bind_run, do_http_run. cbn [fst snd].
  destruct (http_Do E (WithContext request groupCtx)) as [resp|err].
  - destruct (negb (StatusCode resp =? 200)); [discriminate|].
    destruct (ReadAll resp) as [httpBytes|e]; [|discriminate].
    rewrite bind_run, do_ParseResponseForCert_run. cbn [fst snd].
    destruct (ocsp_ParseResponseForCert E _ _ _) as [r0|e] eqn:Hdec;
      [|discriminate].
    destruct (Status r0 =? ocsp_Unknown); [discriminate|].
    intros [= <-]. now exists httpBytes.
  - destruct err; try discriminate.
    destruct (userContextUsed && _); discriminate.
Qed.

(** The query returns the reduction of task results that are all sound. *)
Lemma contactResponders_reduces (E : Env) (ctx : Context) (cfg : config)
  (w : World) :
  completes_all E ->
  exists finished,
    result (contactResponders E ctx cfg) w = reduce finished /\
    Forall (sound_task E (snd (requestContext ctx (time_Now_at E (ticks w)))) cfg)
           finished.
Proof.
  intros Hperm.
  destruct (OCSPServer (serverCert cfg)) as [|ep eps] eqn:Hs.
  { exists []. split; [|constructor].
    unfold result, contactResponders. rewrite Hs. reflexivity. }
  destruct (ocsp_CreateRequest E (serverCert cfg) (issuer cfg))
    as [requestBytes|e] eqn:Hreq.
  - eexists. split.
    + unfold result.
      rewrite (contactResponders_run E ctx cfg requestBytes w);
        [| rewrite Hs; discriminate | exact Hreq].
      cbn [fst]. rewrite Hs. reflexivity.
    + eapply Permutation_Forall; [symmetry; apply Hperm|].
      apply mapM_result_Forall. intros a _ w0. split.
      * apply task_end.
      * intros resp. apply task_sends_decoded.
  - exists []. split; [|constructor].
    unfold result, contactResponders. rewrite Hs. cbn [List.length Nat.eqb].
    rewrite bind_run, do_CreateRequest_run. cbn [fst snd]. rewrite Hreq.
    reflexivity.
Qed.

(** X8.  Given that the tasks finish in some order, [contactResponders]
    never returns a response together with an error.  A response it returns
    was decoded by the codec for the certificate and issuer of the query and
    its status is not Unknown.  An error it returns is a failure of the
    transport, wrapped in the package's error, that passed the test of the
    task while [userContextUsed] was true; the sentinel error of the tasks
    never reaches the caller. *)
Theorem contactResponders_result_shape
  (E : Env) (ctx : Context) (cfg : config) (w : World) :
  completes_all E ->
  (forall r,
     fst (result (contactResponders E ctx cfg) w) = Some r ->
     snd (result (contactResponders E ctx cfg) w) = None /\
     Status r <> ocsp_Unknown /\
     exists httpBytes,
       ocsp_ParseResponseForCert E httpBytes (serverCert cfg) (issuer cfg) = inl r)
  /\
  (forall err,
     snd (result (contactResponders E ctx cfg) w) = Some err ->
     fst (result (contactResponders E ctx cfg) w) = None /\
     err <> errGotOCSPResponse /\
     snd (requestContext ctx (time_Now_at E (ticks w))) = true /\
     exists request cause,
       http_Do E request = inr cause /\
       cancelled_or_timed_out cause /\
       err = newOCSPError cause).
Proof.
  intros Hperm.
  destruct (contactResponders_reduces E ctx cfg w Hperm) as (finished & -> & Hall).
  rewrite Forall_forall in Hall.
  destruct (reduce_cases finished)
    as [-> | [(r0 & returned & Hin & ->) | (published & err0 & Hin & Hs & ->)]];
    cbn [fst snd].
  - split; [intros r; discriminate | intros err; discriminate].
  - split; [| intros err; discriminate].
    intros r [= <-]. split; [reflexivity|].
    destruct (Hall _ Hin) as [Hend Hdec]. split.
    + inversion Hend; subst; assumption.
    + apply Hdec. reflexivity.
  - split; [intros r; discriminate|].
    intros err [= <-]. split; [reflexivity|].
    destruct (Hall _ Hin) as [Hend _].
    inversion Hend as [ | resp Hst | request cause Hu Hdo Hc ]; subst.
    + discriminate Hs.
    + split; [discriminate|]. split; [exact Hu|].
      now exists request, cause.
Qed.

Lemma contactResponders_result_shape_witness :
  completes_all Sample.env
  /\ result (contactResponders Sample.env Sample.ctxShort Sample.cfg) World0
     = (Some Sample.goodResponse, None)
  /\ Status Sample.goodResponse <> ocsp_Unknown.
Proof.
  split; [apply identity_completes_all; reflexivity|].
  split; [reflexivity|].
  apply (proj1 (contactResponders_result_shape
                  Sample.env Sample.ctxShort Sample.cfg World0
                  (identity_completes_all Sample.env eq_refl))
               Sample.goodResponse eq_refl).
Defined.



(** ** The requests of the query *)

(** A task hands the HTTP client the request built for its endpoint, under
    the context of the group, and nothing else; it does not read the
    clock. *)
Lemma task_http_calls (E : Env) (userContextUsed : bool) (groupCtx : Context)
  (cfg : config) (requestBytes : bytes) (endpoint : string) (w : World) :
  ticks (after (task E userContextUsed groupCtx cfg requestBytes endpoint) w)
  = ticks w /\
  http_calls (trace (after (task E userContextUsed groupCtx cfg requestBytes
                                 endpoint) w))
  = http_calls (trace w) ++ requests_for E groupCtx requestBytes [endpoint].
Proof.
  unfold after, task, requests_for. cbn [flat_map]. rewrite app_nil_r.
  destruct (http_NewRequest E "POST" endpoint requestBytes) as [request|e].
  2:{ cbn. now rewrite app_nil_r. }
  cbv zeta. rewrite bind_run, do_http_run. cbn [fst snd].
  assert (Hone : http_calls (trace w ++ [call_http_Do (WithContext request groupCtx)])
                 = http_calls (trace w) ++ [WithContext request groupCtx]).
  { now rewrite http_calls_app. }
  destruct (http_Do E (WithContext request groupCtx)) as [resp|err].
  - destruct (negb (StatusCode resp =? 200)); [now split|].
    destruct (ReadAll resp) as [httpBytes|e]; [|now split].
    rewrite bind_run, do_ParseResponseForCert_run. cbn [fst snd].
    assert (Htwo : http_calls ((trace w ++ [call_http_Do (WithContext request groupCtx)])
                               ++ [call_ParseResponseForCert httpBytes])
                   = http_calls (trace w) ++ [WithContext request groupCtx]).
    { rewrite http_calls_app, Hone. cbn. apply app_nil_r. }
    destruct (ocsp_ParseResponseForCert E _ _ _) as [r|e]; [|now split].
    destruct (Status r =? ocsp_Unknown); now split.
  - destruct err; try now split.
    destruct (userContextUsed && _); now split.
Qed.

Lemma requests_for_app (E : Env) (groupCtx : Context) (requestBytes : bytes)
  (a b : list string) :
  requests_for E groupCtx requestBytes (a ++ b)
  = requests_for E groupCtx requestBytes a ++ requests_for E groupCtx requestBytes b.
Proof. unfold requests_for. apply flat_map_app. Qed.


Lemma mapM_task_http_calls (E : Env) (userContextUsed : bool) (groupCtx : Context)
  (cfg : config) (requestBytes : bytes) (endpoints : list string) (w : World) :
  ticks (after (mapM (task E userContextUsed groupCtx cfg requestBytes) endpoints) w)
  = ticks w /\
  http_calls (trace (after (mapM (task E userContextUsed groupCtx cfg requestBytes)
                                 endpoints) w))
  = http_calls (trace w) ++ requests_for E groupCtx requestBytes endpoints.
Proof.
  unfold after. revert w.
  induction endpoints as [|ep endpoints IH]; intros w; cbn [mapM].
  - cbn. now rewrite app_nil_r.
  - rewrite bind_run, bind_run. cbn [ret snd].
    destruct (task_http_calls E userContextUsed groupCtx cfg requestBytes ep w)
      as [Ht Hh].
    destruct (IH (snd (task E userContextUsed groupCtx cfg requestBytes ep w)))
      as [Ht' Hh'].
    unfold after in Ht, Hh. split; [congruence|].
    rewrite Hh', Hh, <- app_assoc.
    change (ep :: endpoints) with ([ep] ++ endpoints).
    now rewrite requests_for_app.
Qed.



(** ** The deadline of the requests *)

Lemma After_irrefl (t : Time) : After t t = false.
Proof.
  unfold After. destruct (mono t).
  - apply Z.ltb_irrefl.
  - rewrite !Z.ltb_irrefl, andb_false_r. reflexivity.
Qed.

(** The context of the group has a deadline, which is after neither the
    cutoff nor the caller's deadline. *)
Lemma groupCtx_deadline (ctx : Context) (now : Time) :
  exists d,
    Deadline (errgroup_WithContext (fst (requestContext ctx now))) = Some d /\
    After d (Add now defaultRequestTimeout) = false /\
    (forall deadline, Deadline ctx = Some deadline -> After d deadline = false).
Proof.
  unfold requestContext, context_WithDeadline, errgroup_WithContext.
  destruct (Deadline ctx) as [deadline|] eqn:Hd.
  - destruct (After deadline (Add now defaultRequestTimeout)) eqn:Ha.
    + rewrite (After_not_Before _ _ Ha). cbn [fst Deadline].
      exists (Add now defaultRequestTimeout).
      split; [reflexivity|]. split; [apply After_irrefl|].
      intros deadline' [= <-].
      rewrite After_Before_swap. now apply After_not_Before.
    + cbn [fst Deadline]. exists deadline.
      split; [exact Hd|]. split; [exact Ha|].
      intros deadline' [= <-]. apply After_irrefl.
  - cbn [fst Deadline]. exists (Add now defaultRequestTimeout).
    split; [reflexivity|]. split; [apply After_irrefl | discriminate].
Qed.

(** X11.  Every request [contactResponders] hands to the HTTP client runs
    under a context that has a deadline, and that deadline is after neither
    the clock reading plus five seconds nor the deadline of the caller's
    context, if it has one: no request of the query can outlive the shorter
    of the two. *)
Theorem contactResponders_deadline_bound
  (E : Env) (ctx : Context) (cfg : config) (w : World) :
  exists events,
    trace (after (contactResponders E ctx cfg) w) = trace w ++ events /\
    Forall (fun request =>
              exists d,
                Deadline (Ctx request) = Some d /\
                After d (Add (time_Now_at E (ticks w)) defaultRequestTimeout) = false /\
                (forall deadline,
                   Deadline ctx = Some deadline -> After d deadline = false))
           (http_calls events).
Proof.
  destruct (contactResponders_requests E ctx cfg w) as (events & Ht & Hq).
  exists events. split; [exact Ht|].
  eapply Forall_impl; [|exact Hq].
  intros request ->. apply groupCtx_deadline.
Qed.

(** ** [Verify] after the query *)

(** [Verify] on a connection without staple, in terms of what the query
    returned. *)
Lemma Verify_after_query (E : Env) (ctx : Context) (connState : ConnectionState)
  (certChain : list Certificate) (rest : list (list Certificate))
  (cfg : config) (w : World) :
  VerifiedChains connState = certChain :: rest ->
  certChain <> [] ->
  newConfig E certChain = inl cfg ->
  OCSPResponse connState = [] ->
  mustStaple cfg = false ->
  result (Verify E ctx connState) w =
  match result (contactResponders E ctx cfg)
               (mkWorld (ticks w) (trace w ++ [call_newConfig certChain])) with
  | (_, Some err) => Some (newOCSPError err)
  | (None, None) => None
  | (Some r, None) =>
    option_map newOCSPError
      (result (verifyResponse E cfg r)
         (after (contactResponders E ctx cfg)
                (mkWorld (ticks w) (trace w ++ [call_newConfig certChain]))))
  end.
Proof.
  intros Hc Hne Hcfg Hst Hms. unfold result at 1.
  rewrite (Verify_without_staple E ctx connState certChain rest cfg w
             Hc Hne Hcfg Hst Hms).
  rewrite bind_run. unfold result, after.
  destruct (fst (contactResponders E ctx cfg _)) as [[r|] [err|]];
    try reflexivity.
  rewrite conclude_run. reflexivity.
Qed.

(** A query that returned something has read the clock once. *)
Lemma contactResponders_ticks (E : Env) (ctx : Context) (cfg : config) (w : World) :
  result (contactResponders E ctx cfg) w <> (None, None) ->
  ticks (after (contactResponders E ctx cfg) w) = S (ticks w).
Proof.
  unfold result, after. intros Hres.
  destruct (OCSPServer (serverCert cfg)) as [|ep eps] eqn:Hs.
  { exfalso. apply Hres. unfold contactResponders. rewrite Hs. reflexivity. }
  destruct (ocsp_CreateRequest E (serverCert cfg) (issuer cfg))
    as [requestBytes|e] eqn:Hreq.
  - rewrite (contactResponders_run E ctx cfg requestBytes w);
      [| rewrite Hs; discriminate | exact Hreq].
    cbn [snd]. apply mapM_task_http_calls.
  - exfalso. apply Hres. unfold contactResponders. rewrite Hs.
    cbn [List.length Nat.eqb].
    rewrite bind_run, do_CreateRequest_run. cbn [fst snd]. rewrite Hreq.
    reflexivity.
Qed.

(** X12.  When there is no staple and the query returns a response, that
    response is put to the same checks as a staple, at the second reading
    of the clock (the first was the query's): [Verify] returns nil exactly
    when the response passes the two time checks then and its status is not
    Revoked, and otherwise one of the three errors of [verifyResponse],
    wrapped. *)
Theorem Verify_query_verdict
  (E : Env) (ctx : Context) (connState : ConnectionState)
  (certChain : list Certificate) (rest : list (list Certificate))
  (cfg : config) (r : Response) (w : World) :
  VerifiedChains connState = certChain :: rest ->
  certChain <> [] ->
  newConfig E certChain = inl cfg ->
  OCSPResponse connState = [] ->
  mustStaple cfg = false ->
  result (contactResponders E ctx cfg)
         (mkWorld (ticks w) (trace w ++ [call_newConfig certChain]))
  = (Some r, None) ->
  (result (Verify E ctx connState) w = None <->
   in_window r (UTC (time_Now_at E (S (ticks w)))) /\ Status r <> ocsp_Revoked)
  /\
  (forall e,
     result (Verify E ctx connState) w = Some e ->
     exists cause, e = newOCSPError cause /\ ResponseInvalidError cause).
Proof.
  intros Hc Hne Hcfg Hst Hms Hq.
  assert (Ht : ticks (after (contactResponders E ctx cfg)
                        (mkWorld (ticks w) (trace w ++ [call_newConfig certChain])))
               = S (ticks w)).
  { apply (contactResponders_ticks E ctx cfg
             (mkWorld (ticks w) (trace w ++ [call_newConfig certChain]))).
    rewrite Hq. discriminate. }
  rewrite (Verify_after_query E ctx connState certChain rest cfg w
             Hc Hne Hcfg Hst Hms), Hq.
  split.
  - rewrite <- Ht.
    rewrite <- (verifyResponse_accepts_iff E cfg r
                  (after (contactResponders E ctx cfg)
                     (mkWorld (ticks w) (trace w ++ [call_newConfig certChain])))).
    destruct (result (verifyResponse E cfg r) _); cbn;
      split; (discriminate || reflexivity).
  - intros e.
    destruct (result (verifyResponse E cfg r) _) as [cause|] eqn:Hr;
      [|discriminate].
    intros [= <-]. exists cause. split; [reflexivity|].
    exact (verifyResponse_rejects E cfg r _ cause Hr).
Qed.

(** A responder answers Good, and another answers Revoked. *)
Lemma Verify_query_verdict_witness :
  result (Verify Sample.env Sample.ctxShort (Sample.conn Cases.chain [])) World0
  = None
  /\ (exists cause,
        result (Verify (Cases.envAnswering 200 (inl [Byte.x01])) Sample.ctxShort
                  (Sample.conn Cases.chain [])) World0
        = Some (newOCSPError cause) /\ ResponseInvalidError cause).
Proof.
  split.
  - apply (Verify_query_verdict Sample.env Sample.ctxShort
             (Sample.conn Cases.chain []) Cases.chain [] Sample.cfg
             Sample.goodResponse World0
             eq_refl ltac:(discriminate) eq_refl eq_refl eq_refl eq_refl).
    split; [split; [reflexivity | right; reflexivity] | discriminate].
  - destruct (proj2 (Verify_query_verdict
                (Cases.envAnswering 200 (inl [Byte.x01])) Sample.ctxShort
                (Sample.conn Cases.chain []) Cases.chain [] Sample.cfg
                Sample.revokedResponse World0
                eq_refl ltac:(discriminate) eq_refl eq_refl eq_refl eq_refl)
              (newOCSPError (errors_New "certificate is revoked")) eq_refl)
      as (cause & Hc & Hr).
    exists cause. split; [|exact Hr]. rewrite <- Hc. reflexivity.
Defined.

(** When every request fails and no failure passes the test of the task,
    the query has no opinion. *)
Lemma contactResponders_all_suppressed (E : Env) (ctx : Context) (cfg : config)
  (w : World) :
  completes_all E ->
  (forall request, exists err,
     http_Do E request = inr err /\
     ~ (snd (requestContext ctx (time_Now_at E (ticks w))) = true /\
        cancelled_or_timed_out err)) ->
  result (contactResponders E ctx cfg) w = (None, None).
Proof.
  intros Hperm Hall.
  destruct (OCSPServer (serverCert cfg)) as [|ep eps] eqn:Hs.
  { unfold result, contactResponders. rewrite Hs. reflexivity. }
  destruct (ocsp_CreateRequest E (serverCert cfg) (issuer cfg))
    as [requestBytes|e] eqn:Hreq.
  - unfold result.
    rewrite (contactResponders_run E ctx cfg requestBytes w);
      [| rewrite Hs; discriminate | exact Hreq].
    cbn [fst]. apply reduce_no_opinion.
    eapply Permutation_Forall; [symmetry; apply Hperm|].
    apply mapM_result_Forall. intros a _ w0.
    now apply task_suppressed.
  - unfold result, contactResponders. rewrite Hs. cbn [List.length Nat.eqb].
    rewrite bind_run, do_CreateRequest_run. cbn [fst snd]. rewrite Hreq.
    reflexivity.
Qed.

(** X13.  A caller whose context has no deadline, or one further away than
    five seconds, never gets an error out of the network: with no staple, if
    every request fails, be it refused, timed out or cancelled, even by the
    caller, [Verify] returns nil. *)
Theorem Verify_accepts_when_network_fails
  (E : Env) (ctx : Context) (connState : ConnectionState)
  (certChain : list Certificate) (rest : list (list Certificate))
  (cfg : config) (w : World) :
  completes_all E ->
  VerifiedChains connState = certChain :: rest ->
  certChain <> [] ->
  newConfig E certChain = inl cfg ->
  OCSPResponse connState = [] ->
  mustStaple cfg = false ->
  Deadline ctx = None \/
  (exists deadline,
     Deadline ctx = Some deadline /\
     After deadline (Add (time_Now_at E (ticks w)) defaultRequestTimeout) = true) ->
  (forall request, exists err, http_Do E request = inr err) ->
  result (Verify E ctx connState) w = None.
Proof.
  intros Hperm Hc Hne Hcfg Hst Hms Hd Hall.
  rewrite (Verify_after_query E ctx connState certChain rest cfg w
             Hc Hne Hcfg Hst Hms).
  rewrite (contactResponders_all_suppressed E ctx cfg _ Hperm); [reflexivity|].
  intros request. destruct (Hall request) as [err Hdo].
  exists err. split; [exact Hdo|]. cbn [ticks].
  intros [Hu _]. revert Hu. unfold requestContext.
  destruct Hd as [-> | (deadline & -> & ->)]; discriminate.
Qed.

(** Every request is cancelled, and the caller's deadline is a minute
    away. *)
Lemma Verify_accepts_when_network_fails_witness :
  result (Verify Sample.envCancelled Sample.ctxLong (Sample.conn Cases.chain []))
         World0 = None.
Proof.
  apply (Verify_accepts_when_network_fails Sample.envCancelled Sample.ctxLong
           (Sample.conn Cases.chain []) Cases.chain [] Sample.cfg World0
           (identity_completes_all Sample.envCancelled eq_refl)
           eq_refl ltac:(discriminate) eq_refl eq_refl eq_refl).
  - right. exists (mkTime 63900000060 0 (Some 67000000000)).
    split; reflexivity.
  - intros request. eexists. reflexivity.
Defined.

(** X14.  An error of the query reaches the caller of [Verify] wrapped
    twice: the task wraps the transport failure, and [Verify] wraps what
    the query returned, so the text carries the prefix of the package
    twice. *)
Theorem Verify_query_error_wrapped_twice
  (E : Env) (P : Printer) (ctx : Context) (connState : ConnectionState)
  (certChain : list Certificate) (rest : list (list Certificate))
  (cfg : config) (err : error) (w : World) :
  completes_all E ->
  VerifiedChains connState = certChain :: rest ->
  certChain <> [] ->
  newConfig E certChain = inl cfg ->
  OCSPResponse connState = [] ->
  mustStaple cfg = false ->
  snd (result (contactResponders E ctx cfg)
              (mkWorld (ticks w) (trace w ++ [call_newConfig certChain])))
  = Some err ->
  exists request cause,
    http_Do E request = inr cause /\
    cancelled_or_timed_out cause /\
    result (Verify E ctx connState) w
    = Some (newOCSPError (newOCSPError cause)) /\
    error_Error P (newOCSPError (newOCSPError cause))
    = ("OCSP verification failed: OCSP verification failed: "
       ++ error_Error P cause)%string.
Proof.
  intros Hperm Hc Hne Hcfg Hst Hms Herr.
  rewrite (Verify_after_query E ctx connState certChain rest cfg w
             Hc Hne Hcfg Hst Hms).
  destruct (contactResponders_reduces E ctx cfg
              (mkWorld (ticks w) (trace w ++ [call_newConfig certChain])) Hperm)
    as (finished & Hred & Hall).
  rewrite Hred in *. rewrite Forall_forall in Hall.
  destruct (reduce_cases finished)
    as [Hn | [(r0 & returned & Hin & Hn) | (published & err0 & Hin & Hs & Hn)]];
    rewrite Hn in *; cbn [snd] in Herr; try discriminate.
  injection Herr as <-.
  destruct (Hall _ Hin) as [Hend _].
  inversion Hend as [ | resp Hst' | request cause Hu Hdo Hcot ]; subst.
  - discriminate Hs.
  - exists request, cause. repeat split; assumption || reflexivity.
Qed.

(** Every request is cancelled while the caller's own deadline, two seconds
    away, is in force. *)
Lemma Verify_query_error_wrapped_twice_witness :
  exists request cause,
    http_Do Sample.envCancelled request = inr cause /\
    cancelled_or_timed_out cause /\
    result (Verify Sample.envCancelled Sample.ctxShort
              (Sample.conn Cases.chain [])) World0
    = Some (newOCSPError (newOCSPError cause)) /\
    error_Error Cases.printer (newOCSPError (newOCSPError cause))
    = ("OCSP verification failed: OCSP verification failed: "
       ++ error_Error Cases.printer cause)%string.
Proof.
  apply (Verify_query_error_wrapped_twice Sample.envCancelled Cases.printer
           Sample.ctxShort (Sample.conn Cases.chain []) Cases.chain []
           Sample.cfg
           (newOCSPError (Cases.cancelled "http://refused.example")) World0
           (identity_completes_all Sample.envCancelled eq_refl)
           eq_refl ltac:(discriminate) eq_refl eq_refl eq_refl eq_refl).
Defined.

(** ** One answering responder *)

Lemma mapM_result_In {A B : Type} (f : A -> M B) (l : list A) (a : A) (w : World) :
  In a l -> exists w', In (result (f a) w') (result (mapM f l) w).
Proof.
  unfold result. revert w. induction l as [|x l IH]; intros w; [intros []|].
  intros [-> | Hin]; cbn [mapM]; rewrite bind_run, bind_run; cbn [ret fst].
  - exists w. now left.
  - destruct (IH (snd (f x w)) Hin) as [w' Hw']. exists w'. now right.
Qed.

Lemma channel_In (finished : list TaskResult) (r : Response)
  (returned : option error) :
  In (Some r, returned) finished -> channel finished <> [].
Proof.
  induction finished as [|[[r0|] ret0] finished IH]; [intros [] | |].
  - intros _. discriminate.
  - intros [Habs | Hin]; [discriminate | now apply IH].
Qed.

(** A task sends only what its own responder answered. *)
Lemma task_sends_answer (E : Env) (userContextUsed : bool) (groupCtx : Context)
  (cfg : config) (requestBytes : bytes) (endpoint : string) (w : World)
  (r : Response) :
  fst (result (task E userContextUsed groupCtx cfg requestBytes endpoint) w) = Some r ->
  exists request resp httpBytes,
    http_NewRequest E "POST" endpoint requestBytes = inl request /\
    http_Do E (WithContext request groupCtx) = inl resp /\
    ReadAll resp = inl httpBytes /\
    ocsp_ParseResponseForCert E httpBytes (serverCert cfg) (issuer cfg) = inl r.
Proof.
  unfold result, task.
  destruct (http_NewRequest E "POST" endpoint requestBytes) as [request|e];
    [|discriminate].
  cbv zeta. rewrite bind_run, do_http_run. cbn [fst snd].
  destruct (http_Do E (WithContext request groupCtx)) as [resp|err] eqn:Hdo.
  - destruct (negb (StatusCode resp =? 200)); [discriminate|].
    destruct (ReadAll resp) as [httpBytes|e] eqn:Hread; [|discriminate].
    rewrite bind_run, do_ParseResponseForCert_run. cbn [fst snd].
    destruct (ocsp_ParseResponseForCert E _ _ _) as [r0|e] eqn:Hdec;
      [|discriminate].
    destruct (Status r0 =? ocsp_Unknown); [discriminate|].
    intros [= <-]. now exists request, resp, httpBytes.
  - destruct err; try discriminate.
    destruct (userContextUsed && _); discriminate.
Qed.

(** When no task returned an error of its own and all sent responses are
    the same, the query returns that response as soon as one task sent
    it. *)
Lemma reduce_agreeing (finished : list TaskResult) (r : Response)
  (returned : option error) :
  Forall (fun t =>
            (snd t = None \/ snd t = Some errGotOCSPResponse) /\
            (forall r', fst t = Some r' -> r' = r)) finished ->
  In (Some r, returned) finished ->
  reduce finished = (Some r, None).
Proof.
  intros Hall Hin.
  assert (Hquiet : group_Wait (map snd finished) = None \/
                   group_Wait (map snd finished) = Some errGotOCSPResponse).
  { apply group_Wait_quiet, Forall_map.
    eapply Forall_impl; [|exact Hall]. now intros t [H _]. }
  assert (Hch : exists others, channel finished = r :: others).
  { destruct (channel finished) as [|r' others] eqn:Hc.
    - exfalso. exact (channel_In _ _ _ Hin Hc).
    - destruct (channel_head_In _ _ _ Hc) as [ret' Hin'].
      rewrite Forall_forall in Hall.
      destruct (Hall _ Hin') as [_ Hsame].
      rewrite (Hsame r' eq_refl). now exists others. }
  destruct Hch as [others Hch]. unfold reduce. rewrite Hch.
  destruct Hquiet as [-> | ->]; reflexivity.
Qed.

(** X15.  One answering responder is enough, wherever it stands in the
    list and in whatever order the tasks finish: if the request to one
    endpoint of the leaf is answered 200 with a body that decodes to a
    response [r] whose status is not Unknown, no endpoint of the leaf
    answers with a body that decodes to another response, and no transport
    failure passes the test of the task, then [contactResponders] returns
    [r] and no error. *)
Theorem contactResponders_one_answer_suffices
  (E : Env) (ctx : Context) (cfg : config) (requestBytes : bytes)
  (endpoint : string) (request : Request) (resp : HTTPResponse)
  (httpBytes : bytes) (r : Response) (w : World) :
  completes_all E ->
  ocsp_CreateRequest E (serverCert cfg) (issuer cfg) = inl requestBytes ->
  In endpoint (OCSPServer (serverCert cfg)) ->
  http_NewRequest E "POST" endpoint requestBytes = inl request ->
  http_Do E (WithContext request
               (errgroup_WithContext
                  (fst (requestContext ctx (time_Now_at E (ticks w))))))
  = inl resp ->
  StatusCode resp = 200 ->
  ReadAll resp = inl httpBytes ->
  ocsp_ParseResponseForCert E httpBytes (serverCert cfg) (issuer cfg) = inl r ->
  Status r <> ocsp_Unknown ->
  (forall endpoint' request' resp' data r',
     In endpoint' (OCSPServer (serverCert cfg)) ->
     http_NewRequest E "POST" endpoint' requestBytes = inl request' ->
     http_Do E (WithContext request'
                  (errgroup_WithContext
                     (fst (requestContext ctx (time_Now_at E (ticks w))))))
     = inl resp' ->
     ReadAll resp' = inl data ->
     ocsp_ParseResponseForCert E data (serverCert cfg) (issuer cfg) = inl r' ->
     r' = r) ->
  (forall request' err,
     http_Do E request' = inr err ->
     ~ (snd (requestContext ctx (time_Now_at E (ticks w))) = true /\
        cancelled_or_timed_out err)) ->
  result (contactResponders E ctx cfg) w = (Some r, None).
Proof.
  intros Hperm Hreq Hin Hrq Hdo Hstatus Hread Hdec Hconcl Hsame Hsup.
  assert (Hne : OCSPServer (serverCert cfg) <> []).
  { intros Habs. rewrite Habs in Hin. exact Hin. }
  unfold result.
  rewrite (contactResponders_run E ctx cfg requestBytes w Hne Hreq). cbn [fst].
  apply (reduce_agreeing _ r (Some errGotOCSPResponse)).
  - eapply Permutation_Forall; [symmetry; apply Hperm|].
    apply mapM_result_Forall. intros a Ha w0. split.
    + apply (TaskEnd_not_fatal E _ _ Hsup). apply task_end.
    + intros r' Hr'.
      destruct (task_sends_answer E _ _ cfg requestBytes a w0 r' Hr')
        as (request' & resp' & data & Hrq' & Hdo' & Hread' & Hdec').
      exact (Hsame a request' resp' data r' Ha Hrq' Hdo' Hread' Hdec').
  - eapply Permutation_in; [symmetry; apply Hperm|].
    destruct (mapM_result_In
                (task E (snd (requestContext ctx (time_Now_at E (ticks w))))
                   (errgroup_WithContext
                      (fst (requestContext ctx (time_Now_at E (ticks w)))))
                   cfg requestBytes)
                (OCSPServer (serverCert cfg)) endpoint
                (mkWorld (S (ticks w))
                   (trace w ++ [call_CreateRequest; call_time_Now])) Hin)
      as [w' Hw'].
    unfold result in Hw' at 1.
    rewrite (task_answered_run E _ _ cfg requestBytes endpoint request resp w'
               Hrq Hdo) in Hw'.
    apply Z.eqb_eq in Hstatus. rewrite Hstatus, Hread, Hdec in Hw'.
    apply Z.eqb_neq in Hconcl. rewrite Hconcl in Hw'.
    exact Hw'.
Qed.

(** The first responder of the leaf refuses the connection, the second
    answers Good. *)
Lemma contactResponders_one_answer_suffices_witness :
  result (contactResponders Sample.env Sample.ctxShort Sample.cfg) World0
  = (Some Sample.goodResponse, None).
Proof.
  apply (contactResponders_one_answer_suffices Sample.env Sample.ctxShort
           Sample.cfg [Byte.x30; Byte.x02] "http://ocsp.example"
           (mkRequest "POST" "http://ocsp.example" [Byte.x30; Byte.x02]
                      backgroundCtx)
           (mkHTTPResponse 200 (inl [Byte.x00])) [Byte.x00]
           Sample.goodResponse World0
           (identity_completes_all Sample.env eq_refl)
           eq_refl (or_intror (or_introl eq_refl)) eq_refl eq_refl eq_refl
           eq_refl eq_refl ltac:(discriminate)).
  - intros endpoint' request' resp' data r' _ _.
    unfold Sample.env, http_Do, Sample.transport.
    destruct (String.eqb _ "http://refused.example"); [discriminate|].
    intros [= <-] [= <-] [= <-]. reflexivity.
  - intros request' err. unfold Sample.env, http_Do, Sample.transport.
    destruct (String.eqb (URL request') "http://refused.example");
      [|discriminate].
    intros [= <-] [_ (Op & U & inner & [= _ _ <-] & [Hc | Hc])]; discriminate.
Defined.
